(** * The travel-plan SMT formalizer: a shallow embedding of
    [src/server/solver/smt-solver.py]

    The Python class [TravelPlanSolver] turns a JSON trip description into
    z3 variables and assertions, asks z3 for satisfiability and decodes the
    answer.  The development follows the source top-down:

    - JSON values and the Python operations the formalizer applies to them;
    - z3 expressions, the solver object and what z3 and the interpreter
      contribute from outside the repository (a record [Runtime]);
    - the class state and a state-and-exception monad for its methods;
    - [add_variable], [add_constraint], [_formalize_problem],
      [_extract_solution], [_get_unsat_core], [solve_travel_plan];
    - the properties. *)

From Stdlib Require Import ZArith QArith Lia Lqa Ascii String.
From stdpp Require Import base option list strings gmap pretty.

#[local] Set Warnings "-register-all".
#[local] Open Scope string_scope.
#[local] Open Scope nat_scope.
#[local] Open Scope list_scope.

(** ** JSON values

    [json.loads] yields [None], [bool], [int], [float], [str], [list] and
    [dict].  A Python [float] is kept as the rational it denotes: rounding,
    [inf] and [nan] are outside the model, so what is proved about the
    value of a product is proved for integers, which Python multiplies
    exactly.  A [str] is the string of its UTF-8 bytes.  A [dict] is a finite map; the order of its keys is not
    recorded. *)

Inductive json :=
| JNull
| JBool (b : bool)
| JInt (z : Z)
| JFloat (q : Q)
| JStr (s : string)
| JList (l : list json)
| JObj (m : gmap string json).

(** ** Exceptions

    The orchestrator catches [Exception] and reports [str(e)]; the text of
    the message is not modelled, so one exception value is enough. *)

Inductive exn := Exception.

Inductive outcome (A : Type) :=
| Ok (a : A)
| Raise (e : exn).
Arguments Ok {A} a.
Arguments Raise {A} e.

#[export] Instance outcome_ret : MRet outcome := λ A a, Ok a.
#[export] Instance outcome_bind : MBind outcome := λ A B f m,
  match m with
  | Ok a => f a
  | Raise e => Raise e
  end.

Definition raise {A} : outcome A := Raise Exception.

(** [mapM] over a list comprehension that may raise. *)
Fixpoint traverse {A B} (f : A → outcome B) (l : list A) : outcome (list B) :=
  match l with
  | [] => Ok []
  | x :: l' => y ← f x; ys ← traverse f l'; Ok (y :: ys)
  end.

(** [[x for x in l if p(x)]] where the test may raise. *)
Fixpoint filter_raising {A} (p : A → outcome bool) (l : list A) : outcome (list A) :=
  match l with
  | [] => Ok []
  | x :: l' =>
      p x ≫= λ b : bool, ys ← filter_raising p l'; Ok (if b then x :: ys else ys)
  end.

(** ** Python on JSON values *)

Module Py.

(** [bool(l)] for a list. *)
Definition nonempty {A} (l : list A) : bool := negb (Nat.eqb (length l) 0).

(** [bool(v)], the test behind [if v:] and [a and b]. *)
Definition truthy (v : json) : bool :=
  match v with
  | JNull => false
  | JBool b => b
  | JInt z => negb (z =? 0)%Z
  | JFloat q => negb (Qeq_bool q 0)
  | JStr s => negb (String.eqb s "")
  | JList l => nonempty l
  | JObj m => negb (Nat.eqb (size m) 0)
  end.

(** [d.get(k)]: [None] for a missing key. *)
Definition get (d : gmap string json) (k : string) : json :=
  default JNull (d !! k).

(** [d.get(k, dflt)]. *)
Definition get_or (d : gmap string json) (k : string) (dflt : json) : json :=
  default dflt (d !! k).

(** [d[k]]: [KeyError] for a missing key. *)
Definition index (d : gmap string json) (k : string) : outcome json :=
  match d !! k with
  | Some v => Ok v
  | None => raise
  end.

(** [v.get(k, dflt)] on a value that need not be a [dict]:
    [AttributeError] on anything else. *)
Definition attr_get_or (v : json) (k : string) (dflt : json) : outcome json :=
  match v with
  | JObj m => Ok (get_or m k dflt)
  | _ => raise
  end.

(** Numbers: [bool] is a subclass of [int].  The product of two integers
    is the integer Python computes; a product with a float operand is kept
    as the exact rational, where Python rounds it to a double. *)
Inductive num :=
| NInt (z : Z)
| NFloat (q : Q).

Definition as_num (v : json) : option num :=
  match v with
  | JInt z => Some (NInt z)
  | JBool b => Some (NInt (if b then 1 else 0))
  | JFloat q => Some (NFloat q)
  | _ => None
  end.

Definition num_Q (n : num) : Q :=
  match n with
  | NInt z => inject_Z z
  | NFloat q => q
  end.

Definition of_num (n : num) : json :=
  match n with
  | NInt z => JInt z
  | NFloat q => JFloat q
  end.

Definition num_mul (a b : num) : num :=
  match a, b with
  | NInt x, NInt y => NInt (x * y)
  | _, _ => NFloat (num_Q a * num_Q b)
  end.

Definition num_lt (a b : num) : bool :=
  negb (Qle_bool (num_Q b) (num_Q a)).

(** [s * n] for a [str]: [n] copies, none when [n <= 0]. *)
Fixpoint str_repeat (s : string) (n : nat) : string :=
  match n with
  | O => ""
  | S n' => s +:+ str_repeat s n'
  end.

(** [a * b].  Numbers multiply; a [str] times an [int] repeats the
    string.  A [list] times an [int] is a list in Python; each product of
    [_formalize_problem] is next either compared with an [int] by [min]
    or coerced by z3 to a numeral, and both raise on a list, so the model
    raises at the product already.  Everything else is a [TypeError]. *)
Definition mul (a b : json) : outcome json :=
  match as_num a, as_num b with
  | Some x, Some y => Ok (of_num (num_mul x y))
  | _, _ =>
      match a, as_num b, as_num a, b with
      | JStr s, Some (NInt n), _, _ => Ok (JStr (str_repeat s (Z.to_nat n)))
      | _, _, Some (NInt n), JStr s => Ok (JStr (str_repeat s (Z.to_nat n)))
      | _, _, _, _ => raise
      end
  end.

(** [a < b]: numbers by value, strings lexicographically (bytewise on
    UTF-8 is the code-point order); [None], [dict] and mixed operands are
    a [TypeError].  Two lists are ordered in Python; as prices they end in
    the exception of [mul] or of z3's coercion, so the model raises
    here. *)
Definition lt (a b : json) : outcome bool :=
  match as_num a, as_num b with
  | Some x, Some y => Ok (num_lt x y)
  | _, _ =>
      match a, b with
      | JStr s, JStr t => Ok (String.ltb s t)
      | _, _ => raise
      end
  end.

(** [for y in rest: if y < m: m = y]. *)
Fixpoint min_from (m : json) (rest : list json) : outcome json :=
  match rest with
  | [] => Ok m
  | y :: rest' => lt y m ≫= λ b : bool, min_from (if b then y else m) rest'
  end.

(** [for y in rest: if y > m: m = y]. *)
Fixpoint max_from (m : json) (rest : list json) : outcome json :=
  match rest with
  | [] => Ok m
  | y :: rest' => lt m y ≫= λ b : bool, max_from (if b then y else m) rest'
  end.

(** [min(l)] and [max(l)] of a list: [ValueError] when it is empty. *)
Definition min (l : list json) : outcome json :=
  match l with
  | [] => raise
  | x :: rest => min_from x rest
  end.

Definition max (l : list json) : outcome json :=
  match l with
  | [] => raise
  | x :: rest => max_from x rest
  end.

(** [min(a, b)] of two arguments. *)
Definition min2 (a b : json) : outcome json := min_from a [b].

(** The characters of a [str]: a byte in [128, 192) continues the
    character begun before it. *)
Definition is_continuation (a : ascii) : bool :=
  let n := nat_of_ascii a in (128 <=? n)%nat && (n <? 192)%nat.

Definition starts_with_continuation (s : string) : bool :=
  match s with
  | String b _ => is_continuation b
  | EmptyString => false
  end.

Fixpoint chars (s : string) : list string :=
  match s with
  | EmptyString => []
  | String a s' =>
      let r := chars s' in
      match r with
      | c :: r' =>
          if starts_with_continuation s' then String a c :: r'
          else String a EmptyString :: r
      | [] => [String a EmptyString]
      end
  end.

(** [len(v)]. *)
Definition len (v : json) : outcome Z :=
  match v with
  | JList l => Ok (Z.of_nat (length l))
  | JStr s => Ok (Z.of_nat (length (chars s)))
  | JObj m => Ok (Z.of_nat (size m))
  | _ => raise
  end.

(** [iter(v)]: the elements of a list, the characters of a string, the
    keys of a dict (in the order of the map, see [json]); a [TypeError]
    otherwise. *)
Definition iter (v : json) : outcome (list json) :=
  match v with
  | JList l => Ok l
  | JStr s => Ok (JStr <$> chars s)
  | JObj m => Ok ((λ kv, JStr kv.1) <$> map_to_list m)
  | _ => raise
  end.

Fixpoint enumerate_from {A} (i : nat) (l : list A) : list (nat * A) :=
  match l with
  | [] => []
  | x :: l' => (i, x) :: enumerate_from (S i) l'
  end.

(** [enumerate(l)]. *)
Definition enumerate {A} (l : list A) : list (nat * A) := enumerate_from 0 l.

(** [s.lower()] on the ASCII letters.  The two needles looked for in a
    lowered category, "museum" and "cultural", have no letter that a
    non-ASCII character lowers to, so the containment tests agree with
    Python's. *)
Definition ascii_lower (a : ascii) : ascii :=
  let n := nat_of_ascii a in
  if (65 <=? n)%nat && (n <=? 90)%nat then ascii_of_nat (n + 32) else a.

Fixpoint str_lower (s : string) : string :=
  match s with
  | EmptyString => EmptyString
  | String a s' => String (ascii_lower a) (str_lower s')
  end.

(** [v.lower()]: [AttributeError] unless [v] is a [str]. *)
Definition lower (v : json) : outcome string :=
  match v with
  | JStr s => Ok (str_lower s)
  | _ => raise
  end.

(** [needle in s] for strings. *)
Fixpoint contains (needle s : string) : bool :=
  String.prefix needle s ||
  match s with
  | EmptyString => false
  | String _ s' => contains needle s'
  end.

(** [v == s] for a string literal [s]. *)
Definition eq_str (v : json) (s : string) : bool :=
  match v with
  | JStr t => String.eqb t s
  | _ => false
  end.

(** [int(x)] of a float: truncation towards zero. *)
Definition int (x : Q) : Z := Z.quot (Qnum x) (Z.pos (Qden x)).

End Py.

(** ** z3 expressions

    The formalizer builds z3 terms with Python's operators.  Only the shapes
    it builds are represented: constants declared by [Int], [Real] and
    [Bool], numerals, sums and products, comparisons, the equation of a
    Boolean constant with [True], and [And]. *)

Module Z3.

Inductive sort := IntSort | RealSort | BoolSort.

(** The handle returned by [Int(name)], [Real(name)], [Bool(name)]. *)
Record const := Const { const_name : string; const_sort : sort }.

Definition Int (name : string) : const := Const name IntSort.
Definition Real (name : string) : const := Const name RealSort.
Definition Bool (name : string) : const := Const name BoolSort.

Inductive term :=
| Var (v : const)
| Num (q : Q)
| Add (a b : term)
| Mul (a b : term).

Inductive formula :=
| Ge (a b : term)
| Le (a b : term)
| Gt (a b : term)
| Eq (a b : term)
| IsBool (v : const) (b : bool)
| And (f g : formula).

(** What a model holds for a constant. *)
Inductive value :=
| IntVal (z : Z)
| RealVal (q : Q)
| BoolVal (b : bool).

(** A model assigns values to some of the constants, by name. *)
Abbreviation model := (gmap string value).

(** The solver object: the assertions added by [add], in order, and those
    added by [assert_and_track] with their tracking names. *)
Record solver := Solver {
  assertions : list formula;
  tracked : list (string * formula)
}.

Definition add (f : formula) (s : solver) : solver :=
  Solver (assertions s ++ [f]) (tracked s).

Definition assert_and_track (f : formula) (name : string) (s : solver) : solver :=
  Solver (assertions s) (tracked s ++ [(name, f)]).

Inductive check_result := sat | unsat | unknown.

(** *** Meaning of the expressions

    A constant the model leaves out reads as zero or false, which is how
    z3 completes a model. *)

Definition arith (m : model) (v : const) : Q :=
  match m !! const_name v with
  | Some (IntVal z) => inject_Z z
  | Some (RealVal q) => q
  | _ => 0
  end.

Definition truth (m : model) (v : const) : bool :=
  match m !! const_name v with
  | Some (BoolVal b) => b
  | _ => false
  end.

Fixpoint eval (m : model) (t : term) : Q :=
  match t with
  | Var v => arith m v
  | Num q => q
  | Add a b => eval m a + eval m b
  | Mul a b => eval m a * eval m b
  end.

Fixpoint holds (m : model) (f : formula) : bool :=
  match f with
  | Ge a b => Qle_bool (eval m b) (eval m a)
  | Le a b => Qle_bool (eval m a) (eval m b)
  | Gt a b => negb (Qle_bool (eval m a) (eval m b))
  | Eq a b => Qeq_bool (eval m a) (eval m b)
  | IsBool v b => Bool.eqb (truth m v) b
  | And f g => holds m f && holds m g
  end.

(** [m] satisfies everything asserted in [s]. *)
Definition satisfies (m : model) (s : solver) : bool :=
  forallb (holds m) (assertions s) && forallb (λ nf, holds m nf.2) (tracked s).

End Z3.

(** ** What comes from outside the repository

    The interpreter and the z3 library are taken as given:
    - [py_repr]: [str()] of a float, a list or a dict (used when such a
      value stands in the preference list);
    - [z3_numeral]: the numeral z3 reads from a Python [str] operand, if
      any (z3 accepts an [int], a [float] or a numeral string where it
      expects a number);
    - [z3_check], [z3_model], [z3_unsat_core]: the answers of
      [Solver.check], [Solver.model] and [Solver.unsat_core] on a solver
      holding given assertions;
    - [time_time]: the successive readings of [time.time()]. *)

Record Runtime := {
  py_repr : json → string;
  z3_numeral : string → option Q;
  z3_check : Z3.solver → outcome Z3.check_result;
  z3_model : Z3.solver → Z3.model;
  z3_unsat_core : Z3.solver → outcome (list string);
  time_time : nat → Q
}.

(** The contract the properties below rely on, stated where it is used:
    a [sat] answer comes with a model of the assertions, an [unsat] answer
    is given only when there is none, and an unsatisfiable core names
    tracked assertions only. *)

Definition sat_sound (rt : Runtime) (s : Z3.solver) : Prop :=
  z3_check rt s = Ok Z3.sat → Z3.satisfies (z3_model rt s) s = true.

Definition unsat_sound (rt : Runtime) (s : Z3.solver) : Prop :=
  z3_check rt s = Ok Z3.unsat → ∀ m, Z3.satisfies m s = false.

Definition decides (rt : Runtime) (s : Z3.solver) : Prop :=
  z3_check rt s = Ok Z3.sat ∨ z3_check rt s = Ok Z3.unsat.

Definition core_of_tracked (rt : Runtime) (s : Z3.solver) : Prop :=
  ∀ core, z3_unsat_core rt s = Ok core → ∀ c, c ∈ core → c ∈ (Z3.tracked s).*1.

(** ** The class [TravelPlanSolver] *)

(** An entry of [self.constraints].  The source stores [str(expr)] under
    ['expression']; the expression itself is kept here. *)
Record constraint := Constraint {
  name : string;
  expression : Z3.formula;
  is_hard : bool
}.

Record TravelPlanSolver := Self {
  solver : Z3.solver;
  variables : gmap string Z3.const;
  constraints : list constraint;
  constraint_names : gmap string Z3.formula
}.

(** [__init__]. *)
Definition __init__ : TravelPlanSolver :=
  Self (Z3.Solver [] []) ∅ [] ∅.

(** A method body: it reads and updates [self] and may raise; what was
    written to [self] before the exception stays written. *)
Definition M (A : Type) : Type := TravelPlanSolver → TravelPlanSolver * outcome A.

#[export] Instance M_ret : MRet M := λ A a self, (self, Ok a).
#[export] Instance M_bind : MBind M := λ A B f m self,
  match m self with
  | (self', Ok a) => f a self'
  | (self', Raise e) => (self', Raise e)
  end.

(** A computation that does not touch [self]. *)
Definition pure {A} (o : outcome A) : M A := λ self, (self, o).

Definition modify (f : TravelPlanSolver → TravelPlanSolver) : M unit :=
  λ self, (f self, Ok ()).

(** [if c: body]. *)
Definition when (c : bool) (body : M unit) : M unit :=
  if c then body else mret ().

(** [for x in l: body(x)]. *)
Fixpoint for_each {A} (l : list A) (body : A → M unit) : M unit :=
  match l with
  | [] => mret ()
  | x :: l' => body x;; for_each l' body
  end.

(** [self.variables[name] = v]. *)
Definition set_variable (name : string) (v : Z3.const) : M unit :=
  modify (λ self, Self (solver self) (<[name := v]> (variables self))
                       (constraints self) (constraint_names self)).

(** [self.variables[name]]: [KeyError] when the name was never declared. *)
Definition variable (name : string) : M Z3.const :=
  λ self, (self, match variables self !! name with
                 | Some v => Ok v
                 | None => raise
                 end).

(** [name in self.variables]. *)
Definition declared (name : string) : M bool :=
  λ self, (self, Ok (bool_decide (is_Some (variables self !! name)))).

(** [self.solver.add(f)]. *)
Definition solver_add (f : Z3.formula) : M unit :=
  modify (λ self, Self (Z3.add f (solver self)) (variables self)
                       (constraints self) (constraint_names self)).

(** [self.solver.assert_and_track(f, name)]. *)
Definition solver_assert_and_track (f : Z3.formula) (name : string) : M unit :=
  modify (λ self, Self (Z3.assert_and_track f name (solver self)) (variables self)
                       (constraints self) (constraint_names self)).

(** [if domain:] for the bounds argument: [None] and the empty dict are
    falsy. *)
Definition domain_truthy (domain : option (gmap string Q)) : bool :=
  match domain with
  | Some d => negb (Nat.eqb (size d) 0)
  | None => false
  end.

(** The bounds of [add_variable]:
    [if "min" in domain: self.solver.add(self.variables[name] >= domain["min"])]
    and the same for ["max"]. *)
Definition add_bounds (name : string) (d : gmap string Q) : M unit :=
  match d !! "min" with
  | Some lo => v ← variable name; solver_add (Z3.Ge (Z3.Var v) (Z3.Num lo))
  | None => mret ()
  end;;
  match d !! "max" with
  | Some hi => v ← variable name; solver_add (Z3.Le (Z3.Var v) (Z3.Num hi))
  | None => mret ()
  end.

Definition add_variable (name var_type : string) (domain : option (gmap string Q)) : M unit :=
  if String.eqb var_type "int" then
    if domain_truthy domain then
      set_variable name (Z3.Int name);;
      add_bounds name (default ∅ domain)
    else
      set_variable name (Z3.Int name)
  else if String.eqb var_type "bool" then
    set_variable name (Z3.Bool name)
  else if String.eqb var_type "real" then
    if domain_truthy domain then
      set_variable name (Z3.Real name);;
      add_bounds name (default ∅ domain)
    else
      set_variable name (Z3.Real name)
  else mret ().

Definition add_constraint (constraint_expr : Z3.formula) (name : string)
    (is_hard : bool) : M unit :=
  (if is_hard then solver_add constraint_expr
   else solver_assert_and_track constraint_expr name);;
  modify (λ self, Self (solver self) (variables self)
                       (constraints self ++ [Constraint name constraint_expr is_hard])
                       (constraint_names self));;
  modify (λ self, Self (solver self) (variables self) (constraints self)
                       (<[name := constraint_expr]> (constraint_names self))).

(** A decoded value of the solution: [as_long()], [float(...)], [is_true()]
    or the [None] of a failed decoding. *)
Inductive pyvalue :=
| PyInt (z : Z)
| PyFloat (q : Q)
| PyBool (b : bool)
| PyNone.

(** The dictionary returned by [solve_travel_plan], one constructor per
    ['status']. *)
Inductive result :=
| Satisfiable (solution : gmap string pyvalue) (execution_time : Z) (constraints_count : nat)
| Unsatisfiable (unsat_core : list string) (execution_time : Z) (constraints_count : nat)
| Timeout (execution_time : Z)
| Error (error : exn) (execution_time : Z).

Definition status (r : result) : string :=
  match r with
  | Satisfiable _ _ _ => "satisfiable"
  | Unsatisfiable _ _ _ => "unsatisfiable"
  | Timeout _ => "timeout"
  | Error _ _ => "error"
  end.

(** [r['solution']], [r['unsat_core']] and [r['constraints_count']], where
    the result has the key. *)
Definition solution_of (r : result) : option (gmap string pyvalue) :=
  match r with
  | Satisfiable solution _ _ => Some solution
  | _ => None
  end.

Definition unsat_core_of (r : result) : option (list string) :=
  match r with
  | Unsatisfiable unsat_core _ _ => Some unsat_core
  | _ => None
  end.

Definition constraints_count_of (r : result) : option nat :=
  match r with
  | Satisfiable _ _ n | Unsatisfiable _ _ n => Some n
  | _ => None
  end.

Definition execution_time (r : result) : Z :=
  match r with
  | Satisfiable _ t _ | Unsatisfiable _ t _ | Timeout t | Error _ t => t
  end.

Section Solve.

Context (rt : Runtime).

(** [str(v)] inside an f-string. *)
Definition str (v : json) : string :=
  match v with
  | JStr s => s
  | JInt z => pretty z
  | JBool true => "True"
  | JBool false => "False"
  | JNull => "None"
  | _ => py_repr rt v
  end.

(** z3's coercion of a Python operand that meets a Real term: an [int] or
    a [float] is its numeral, a [str] is parsed as one, anything else is
    refused with a [Z3Exception]. *)
Definition numeral (v : json) : outcome Q :=
  match v with
  | JInt z => Ok (inject_Z z)
  | JFloat q => Ok q
  | JStr s => match z3_numeral rt s with
              | Some q => Ok q
              | None => raise
              end
  | _ => raise
  end.

(** [t >= v], [t <= v] and [t * v] for a z3 term [t] and a Python
    value [v], as [ArithRef] overloads them. *)
Definition __ge__ (t : Z3.term) (v : json) : outcome Z3.formula :=
  q ← numeral v; Ok (Z3.Ge t (Z3.Num q)).

Definition __le__ (t : Z3.term) (v : json) : outcome Z3.formula :=
  q ← numeral v; Ok (Z3.Le t (Z3.Num q)).

Definition __mul__ (t : Z3.term) (v : json) : outcome Z3.term :=
  q ← numeral v; Ok (Z3.Mul t (Z3.Num q)).

(** [sum(l)] of z3 terms: Python starts from [0]. *)
Definition sum_terms (l : list Z3.term) : Z3.term :=
  fold_left Z3.Add l (Z3.Num 0).

(** [[hotel.get('price_per_night', 100) for hotel in data['hotels']]]. *)
Definition hotel_costs_of (hotels : json) : outcome (list json) :=
  hs ← Py.iter hotels;
  traverse (λ hotel, Py.attr_get_or hotel "price_per_night" (JInt 100)) hs.

(** [min(hotel_costs) if hotel_costs else 50] and its twin. *)
Definition min_hotel_cost_of (hotel_costs : list json) : outcome json :=
  if Py.nonempty hotel_costs then Py.min hotel_costs else Ok (JInt 50).

Definition max_hotel_cost_of (hotel_costs : list json) : outcome json :=
  if Py.nonempty hotel_costs then Py.max hotel_costs else Ok (JInt 300).

(** The test of the comprehension that selects cultural attractions:
    ['museum' in a.get('category', '').lower() or
     'cultural' in a.get('category', '').lower()]. *)
Definition is_cultural (a : json) : outcome bool :=
  c ← Py.attr_get_or a "category" (JStr "");
  s ← Py.lower c;
  if Py.contains "museum" s then Ok true
  else
    c' ← Py.attr_get_or a "category" (JStr "");
    s' ← Py.lower c';
    Ok (Py.contains "cultural" s').

(** *** [_formalize_problem], block by block *)

(** [# Zeitvariablen] *)
Definition formalize_dates (data : gmap string json) : M unit :=
  when (Py.truthy (Py.get data "start_date") && Py.truthy (Py.get data "end_date")) (
    add_variable "start_day" "int" (Some {[ "min" := 0%Q; "max" := 365%Q ]});;
    add_variable "end_day" "int" (Some {[ "min" := 0%Q; "max" := 365%Q ]});;
    end_day ← variable "end_day";
    start_day ← variable "start_day";
    add_constraint (Z3.Gt (Z3.Var end_day) (Z3.Var start_day)) "valid_date_range" true).

(** [# Accommodation costs] *)
Definition formalize_accommodation (data : gmap string json) : M unit :=
  when (Py.truthy (Py.get data "hotels")) (
    add_variable "accommodation_cost" "real" (Some {[ "min" := 0%Q ]});;
    hotel_costs ← pure (hotels ← Py.index data "hotels"; hotel_costs_of hotels);
    min_hotel_cost ← pure (min_hotel_cost_of hotel_costs);
    max_hotel_cost ← pure (max_hotel_cost_of hotel_costs);
    let duration := Py.get_or data "duration" (JInt 3) in
    lo_var ← variable "accommodation_cost";
    lo ← pure (x ← Py.mul min_hotel_cost duration; __ge__ (Z3.Var lo_var) x);
    hi_var ← variable "accommodation_cost";
    hi ← pure (x ← Py.mul max_hotel_cost duration; __le__ (Z3.Var hi_var) x);
    add_constraint (Z3.And lo hi) "accommodation_cost_range" true).

(** [# Activity costs] *)
Definition formalize_activity_cost (data : gmap string json) : M unit :=
  when (Py.truthy (Py.get data "attractions")) (
    add_variable "activity_cost" "real" (Some {[ "min" := 0%Q ]});;
    let avg_activity_cost := JInt 25 in
    num_activities ← pure (
      attractions ← Py.index data "attractions";
      n ← Py.len attractions;
      twice ← Py.mul (Py.get_or data "duration" (JInt 3)) (JInt 2);
      Py.min2 (JInt n) twice);
    v ← variable "activity_cost";
    estimate ← pure (x ← Py.mul avg_activity_cost num_activities; __le__ (Z3.Var v) x);
    add_constraint estimate "activity_cost_estimate" true).

(** [if name in self.variables: cost_components.append(self.variables[name])],
    as the list of what is appended. *)
Definition cost_component (name : string) : M (list Z3.term) :=
  declared name ≫= λ present : bool,
  if present then v ← variable name; mret [Z3.Var v] else mret [].

(** [# Total budget constraint] *)
Definition formalize_total (budget_limit : json) : M unit :=
  accommodation ← cost_component "accommodation_cost";
  activity ← cost_component "activity_cost";
  let cost_components := (accommodation ++ activity)%list in
  when (Py.nonempty cost_components) (
    let total_expr := sum_terms cost_components in
    add_variable "calculated_total" "real" None;;
    total ← variable "calculated_total";
    add_constraint (Z3.Eq (Z3.Var total) total_expr) "total_cost_calculation" true;;
    total' ← variable "calculated_total";
    limit ← pure (__le__ (Z3.Var total') budget_limit);
    add_constraint limit "budget_limit" true).

(** [# Budget-Constraints] *)
Definition formalize_budget (data : gmap string json) : M unit :=
  when (Py.truthy (Py.get data "budget")) (
    budget_limit ← pure (Py.index data "budget");
    add_variable "total_cost" "real" (Some {[ "min" := 0%Q ]});;
    formalize_accommodation data;;
    formalize_activity_cost data;;
    formalize_total budget_limit).

(** The body of the loop over [enumerate(preferences)]. *)
Definition formalize_preference (data : gmap string json) (i : nat) (pref : json) : M unit :=
  let pref_var := "preference_" +:+ pretty i +:+ "_" +:+ str pref in
  add_variable pref_var "bool" None;;
  if Py.eq_str pref "culture" && Py.truthy (Py.get data "attractions") then
    cultural_attractions ← pure (
      attractions ← Py.index data "attractions";
      items ← Py.iter attractions;
      filter_raising is_cultural items);
    when (Py.nonempty cultural_attractions) (
      v ← variable pref_var;
      add_constraint (Z3.IsBool v true) "culture_preference_satisfied" true)
  else if Py.eq_str pref "budget" && Py.truthy (Py.get data "budget") then
    v ← variable pref_var;
    add_constraint (Z3.IsBool v true) "budget_preference_considered" true
  else mret ().

(** [# Präferenz-Constraints] *)
Definition formalize_preferences (data : gmap string json) : M unit :=
  let preferences := Py.get_or data "preferences" (JList []) in
  when (Py.truthy preferences) (
    prefs ← pure (Py.iter preferences);
    for_each (Py.enumerate prefs) (λ ip, formalize_preference data ip.1 ip.2)).

(** The hotel block after [# Simplified and more realistic constraints]. *)
Definition formalize_hotel (data : gmap string json) : M unit :=
  when (Py.truthy (Py.get data "hotels")) (
    add_variable "hotel_selected" "bool" None;;
    v ← variable "hotel_selected";
    add_constraint (Z3.IsBool v true) "hotel_availability" true).

(** The activity scheduling block. *)
Definition formalize_scheduling (data : gmap string json) : M unit :=
  when (Py.truthy (Py.get data "attractions") && Py.truthy (Py.get data "duration")) (
    num_attractions ← pure (attractions ← Py.index data "attractions"; Py.len attractions);
    let duration := Py.get_or data "duration" (JInt 3) in
    add_variable "activities_per_day" "real" (Some {[ "min" := (1 # 2)%Q; "max" := 4%Q ]});;
    add_variable "total_activities_planned" "real" (Some {[ "min" := 1%Q ]});;
    planned ← variable "total_activities_planned";
    per_day ← variable "activities_per_day";
    capacity ← pure (__mul__ (Z3.Var per_day) duration);
    add_constraint (Z3.Le (Z3.Var planned) capacity) "activity_scheduling_upper" true;;
    planned' ← variable "total_activities_planned";
    add_constraint (Z3.Le (Z3.Var planned') (Z3.Num (inject_Z num_attractions)))
      "activity_availability" true;;
    planned'' ← variable "total_activities_planned";
    floor ← pure (x ← Py.mul duration (JFloat (1 # 2)); __ge__ (Z3.Var planned'') x);
    add_constraint floor "minimum_activities" true).

Definition _formalize_problem (data : gmap string json) : M unit :=
  formalize_dates data;;
  formalize_budget data;;
  formalize_preferences data;;
  formalize_hotel data;;
  formalize_scheduling data.

(** *** Decoding *)

(** [value.as_decimal(10)] ends in ["?"] when ten decimals do not hold
    the value, and [float()] of such a string raises. *)
Definition ten_decimals_exact (q : Q) : bool :=
  ((Qnum q * 10 ^ 10) mod Z.pos (Qden q) =? 0)%Z.

(** The body of the [try] in [_extract_solution], for a value the model
    does hold.  z3 gives an integer to an [Int] constant, a rational to a
    [Real] one and a truth value to a [Bool] one; for any other pairing
    the accessor does not exist and the call raises. *)
Definition decode (var : Z3.const) (value : Z3.value) : outcome pyvalue :=
  match Z3.const_sort var with
  | Z3.IntSort =>
      match value with
      | Z3.IntVal z => Ok (PyInt z)
      | _ => raise
      end
  | Z3.RealSort =>
      match value with
      | Z3.RealVal q => if ten_decimals_exact q then Ok (PyFloat q) else raise
      | _ => raise
      end
  | Z3.BoolSort =>
      match value with
      | Z3.BoolVal b => Ok (PyBool b)
      | _ => Ok (PyBool false)
      end
  end.

(** The loop over [self.variables.items()]: a variable the model has no
    value for is skipped ([if value is not None:] has no [else]); one
    whose decoding raises is set to [None]. *)
Definition _extract_solution (model : Z3.model) (self : TravelPlanSolver)
    : gmap string pyvalue :=
  map_imap (λ (var_name : string) (var : Z3.const),
    match model !! Z3.const_name var with
    | Some value =>
        Some (match decode var value with
              | Ok v => v
              | Raise _ => PyNone
              end)
    | None => None
    end) (variables self).

Definition _get_unsat_core (self : TravelPlanSolver) : list string :=
  match z3_unsat_core rt (solver self) with
  | Ok core => core
  | Raise _ => []
  end.

(** [int((time.time() - start_time) * 1000)] at the second reading of the
    clock; every path through [solve_travel_plan] reads it twice. *)
Definition elapsed_ms : Z :=
  Py.int ((time_time rt 1 - time_time rt 0) * 1000).

Definition solve_travel_plan (problem_data : gmap string json)
    (self : TravelPlanSolver) : TravelPlanSolver * result :=
  match _formalize_problem problem_data self with
  | (self', Raise e) => (self', Error e elapsed_ms)
  | (self', Ok _) =>
      match z3_check rt (solver self') with
      | Raise e => (self', Error e elapsed_ms)
      | Ok Z3.sat =>
          let solution := _extract_solution (z3_model rt (solver self')) self' in
          (self', Satisfiable solution elapsed_ms (length (constraints self')))
      | Ok Z3.unsat =>
          let unsat_core := _get_unsat_core self' in
          (self', Unsatisfiable unsat_core elapsed_ms (length (constraints self')))
      | Ok Z3.unknown => (self', Timeout elapsed_ms)
      end
  end.

(** One solve session, as [main] runs it:
    [TravelPlanSolver().solve_travel_plan(problem_data)]. *)
Definition session (problem_data : gmap string json) : result :=
  (solve_travel_plan problem_data __init__).2.

(** [solve_travel_plan] on whatever [json.loads] returned.  [problem_data]
    is annotated [Dict]; on a document that is no dict the first
    [data.get] of [_formalize_problem] raises an [AttributeError], inside
    the [try]. *)
Definition solve_parsed (document : json) (self : TravelPlanSolver)
    : TravelPlanSolver * result :=
  match document with
  | JObj problem_data => solve_travel_plan problem_data self
  | _ => (self, Error Exception elapsed_ms)
  end.

End Solve.

(** ** Scenarios and a reference runtime

    The inputs of §8 of the specification and of [test-solver.py], and a
    runtime to run them with: its solver checks a candidate model and
    answers [sat] exactly when the candidate satisfies the assertions, its
    core lists every tracked name, its clock advances by 12 ms a reading. *)

Definition certifying_check (candidate : Z3.model) (s : Z3.solver) : Z3.check_result :=
  if Z3.satisfies candidate s then Z3.sat else Z3.unsat.

Definition scenario_runtime (candidate : Z3.model) : Runtime := {|
  py_repr := λ _, "<repr>";
  z3_numeral := λ _, None;
  z3_check := λ s, Ok (certifying_check candidate s);
  z3_model := λ _, candidate;
  z3_unsat_core := λ s, Ok (Z3.tracked s).*1;
  time_time := λ n, (Z.of_nat n * 12 # 1000)%Q
|}.

Definition hotel (price_per_night : Z) : json :=
  JObj {[ "price_per_night" := JInt price_per_night ]}.

Definition attraction (name : string) : json :=
  JObj {[ "name" := JStr name ]}.

(** [{budget: 200, duration: 5, hotels: [{price_per_night: 300}]}]. *)
Definition zurich : gmap string json :=
  {[ "budget" := JInt 200; "duration" := JInt 5; "hotels" := JList [hotel 300] ]}.

(** The same trip with a budget of zero, and a model of its assertions. *)
Definition zurich_for_free : gmap string json := <["budget" := JInt 0]> zurich.

Definition zurich_for_free_model : Z3.model :=
  {[ "hotel_selected" := Z3.BoolVal true ]}.

(** Test 4 of [test-solver.py] (the names of the attractions play no
    role). *)
Definition vienna : gmap string json :=
  {[ "destination" := JStr "Vienna"; "budget" := JInt 1200; "duration" := JInt 4;
     "preferences" := JList [JStr "culture"; JStr "dining"];
     "hotels" := JList [hotel 120; hotel 180; hotel 250];
     "attractions" := JList [attraction "Schoenbrunn Palace";
                             attraction "Belvedere Palace";
                             attraction "St. Stephen's Cathedral"] ]}.

(** A model of the assertions of [vienna]; like a model of z3 it values
    the constants that occur in the assertions. *)
Definition vienna_model : Z3.model :=
  {[ "total_cost" := Z3.RealVal 0; "accommodation_cost" := Z3.RealVal 480;
     "activity_cost" := Z3.RealVal 0; "calculated_total" := Z3.RealVal 480;
     "hotel_selected" := Z3.BoolVal true;
     "activities_per_day" := Z3.RealVal 1; "total_activities_planned" := Z3.RealVal 2 ]}.

(** Another model of the same assertions, and a runtime with a slower
    clock. *)
Definition vienna_busy_model : Z3.model :=
  {[ "total_cost" := Z3.RealVal 7; "accommodation_cost" := Z3.RealVal 1000;
     "activity_cost" := Z3.RealVal 75; "calculated_total" := Z3.RealVal 1075;
     "hotel_selected" := Z3.BoolVal true;
     "activities_per_day" := Z3.RealVal 4; "total_activities_planned" := Z3.RealVal 3 ]}.

Definition at_pace (ms : Z) (rt : Runtime) : Runtime := {|
  py_repr := py_repr rt;
  z3_numeral := z3_numeral rt;
  z3_check := z3_check rt;
  z3_model := z3_model rt;
  z3_unsat_core := z3_unsat_core rt;
  time_time := λ n, (Z.of_nat n * ms # 1000)%Q
|}.

(** A stay of no days, and the same trip without a duration. *)
Definition day_trip : gmap string json :=
  {[ "budget" := JInt 50; "duration" := JInt 0; "hotels" := JList [hotel 30] ]}.

Definition open_ended : gmap string json := delete "duration" day_trip.

Definition day_trip_model : Z3.model :=
  {[ "total_cost" := Z3.RealVal 0; "accommodation_cost" := Z3.RealVal 0;
     "calculated_total" := Z3.RealVal 0; "hotel_selected" := Z3.BoolVal true ]}.

(** A budget-minded traveller who says so twice. *)
Definition thrifty : gmap string json :=
  {[ "budget" := JInt 100; "preferences" := JList [JStr "budget"; JStr "budget"] ]}.

Definition thrifty_model : Z3.model :=
  {[ "total_cost" := Z3.RealVal 0;
     "preference_0_budget" := Z3.BoolVal true;
     "preference_1_budget" := Z3.BoolVal true ]}.

(** The names recorded in [self.constraints], in order. *)
Definition recorded_names (self : TravelPlanSolver) : list string :=
  name <$> constraints self.

(** ** Vocabulary of the properties *)

(** Two bodies that agree on every [self]. *)
Definition agree {A} (m m' : M A) : Prop := ∀ s, m s = m' s.

(** [P] survives the body [m], whether or not it raises. *)
Definition preserves {A} (P : TravelPlanSolver → Prop) (m : M A) : Prop :=
  ∀ s, P s → P (m s).1.

(** Every recorded constraint is hard and nothing is tracked. *)
Definition hard_only (s : TravelPlanSolver) : Prop :=
  Forall (λ c, is_hard c = true) (constraints s) ∧ Z3.tracked (solver s) = [].

(** Each variable is stored under the name of its z3 constant. *)
Definition named_after_key (s : TravelPlanSolver) : Prop :=
  ∀ k v, variables s !! k = Some v → Z3.const_name v = k.

(** The keys of [self.constraint_names] are the names in
    [self.constraints]. *)
Definition indexed (s : TravelPlanSolver) : Prop :=
  dom (constraint_names s) = list_to_set (recorded_names s).

(** The number of distinct names in [self.constraints]. *)
Definition distinct_names (s : TravelPlanSolver) : nat :=
  length (remove_dups (recorded_names s)).

(** A hotel entry whose nightly price, 100 when the key is missing, is the
    number [p]. *)
Definition priced (hotel : json) (p : Py.num) : Prop :=
  ∃ m, hotel = JObj m ∧ Py.as_num (Py.get_or m "price_per_night" (JInt 100)) = Some p.

(** [lo] is a least and [hi] a greatest number of the list. *)
Definition lowest (l : list Py.num) (lo : Py.num) : Prop :=
  lo ∈ l ∧ ∀ p, p ∈ l → (Py.num_Q lo <= Py.num_Q p)%Q.

Definition highest (l : list Py.num) (hi : Py.num) : Prop :=
  hi ∈ l ∧ ∀ p, p ∈ l → (Py.num_Q p <= Py.num_Q hi)%Q.

(** An integer on which Python and the model compute the same: below
    [2 ^ 53] in magnitude it is a float without rounding, so that
    [duration * 0.5] is the exact half, and [str] prints it in full, which
    is how z3 reads a Python [int]. *)
Definition exact_int (z : Z) : Prop := (Z.abs z < 2 ^ 53)%Z.

(** The constant [self.variables['accommodation_cost']] and the range
    constraint for a least price [lo], a greatest price [hi] and a duration
    [d]. *)
Definition accommodation_cost : Z3.term := Z3.Var (Z3.Real "accommodation_cost").

Definition accommodation_cost_range (lo hi d : Py.num) : Z3.formula :=
  Z3.And (Z3.Ge accommodation_cost (Z3.Num (Py.num_Q (Py.num_mul lo d))))
         (Z3.Le accommodation_cost (Z3.Num (Py.num_Q (Py.num_mul hi d)))).

(** What later calls cannot undo: the variable stored under [k], the
    assertions [fs] and the records [cs]. *)
Definition keeps (k : string) (v : Z3.const) (fs : list Z3.formula)
    (cs : list constraint) (s : TravelPlanSolver) : Prop :=
  variables s !! k = Some v
  ∧ (∀ f, f ∈ fs → f ∈ Z3.assertions (solver s))
  ∧ (∀ c, c ∈ cs → c ∈ constraints s).

(** No model satisfies the assertions. *)
Definition refuted (s : TravelPlanSolver) : Prop :=
  ∀ m, forallb (Z3.holds m) (Z3.assertions (solver s)) = false.

(** If [activity_cost] is declared, its lower bound is asserted. *)
Definition activity_bounded (s : TravelPlanSolver) : Prop :=
  ∀ v, variables s !! "activity_cost" = Some v →
       Z3.Ge (Z3.Var v) (Z3.Num 0) ∈ Z3.assertions (solver s).

(** The components that [formalize_total] finds declared in [s]. *)
Definition cost_components_in (s : TravelPlanSolver) : list Z3.term :=
  from_option (λ v, [Z3.Var v]) [] (variables s !! "accommodation_cost")
  ++ from_option (λ v, [Z3.Var v]) [] (variables s !! "activity_cost").

Definition calculated_total : Z3.term := Z3.Var (Z3.Real "calculated_total").

(** The fields that formalization reads through [if data.get(...):] only. *)
Definition gated_fields : list string :=
  ["start_date"; "end_date"; "budget"; "hotels"; "attractions"; "preferences"].

(** Two trip descriptions with the same duration entry whose other entries
    are equal or falsy on both sides. *)
Definition alike (d1 d2 : gmap string json) : Prop :=
  d1 !! "duration" = d2 !! "duration"
  ∧ ∀ k, d1 !! k = d2 !! k
         ∨ (Py.truthy (Py.get d1 k) = false ∧ Py.truthy (Py.get d2 k) = false).

(** Nothing is declared under the names [vars] and nothing recorded under
    the names [names]. *)
Definition lacks (vars names : list string) (s : TravelPlanSolver) : Prop :=
  (∀ n, n ∈ vars → variables s !! n = None)
  ∧ (∀ n, n ∈ names → n ∉ recorded_names s).

(** What the budget block declares and records. *)
Definition budget_variables : list string :=
  ["total_cost"; "accommodation_cost"; "activity_cost"; "calculated_total"].

Definition budget_constraints : list string :=
  ["accommodation_cost_range"; "activity_cost_estimate"; "total_cost_calculation";
   "budget_limit"; "budget_preference_considered"].

(** ** Reasoning about method bodies *)

Lemma run_bind {A B} (m : M A) (f : A → M B) s :
  (m ≫= f) s = match m s with
               | (s', Ok a) => f a s'
               | (s', Raise e) => (s', Raise e)
               end.
Proof. reflexivity. Qed.

Lemma run_bind_ok {A B} (m : M A) (f : A → M B) s s' a :
  m s = (s', Ok a) → (m ≫= f) s = f a s'.
Proof. intros H. rewrite run_bind, H. reflexivity. Qed.

Lemma run_pure_ok {A B} (o : outcome A) (f : A → M B) s a :
  o = Ok a → (pure o ≫= f) s = f a s.
Proof. intros ->. reflexivity. Qed.

Lemma bind_ok_inv {A B} (m : M A) (f : A → M B) s s' b :
  (m ≫= f) s = (s', Ok b) → ∃ s1 a, m s = (s1, Ok a) ∧ f a s1 = (s', Ok b).
Proof.
  rewrite run_bind. destruct (m s) as [s1 [a|e]]; [eauto | discriminate].
Qed.

Lemma agree_bind {A B} (m m' : M A) (f f' : A → M B) :
  agree m m' → (∀ a, agree (f a) (f' a)) → agree (m ≫= f) (m' ≫= f').
Proof.
  intros Hm Hf s. rewrite !run_bind, Hm.
  destruct (m' s) as [s1 [a|e]]; [apply Hf | reflexivity].
Qed.

Lemma agree_when (c c' : bool) (m m' : M unit) :
  c = c' → (c = true → agree m m') → agree (when c m) (when c' m').
Proof. intros <- H. destruct c; [by apply H | done]. Qed.

Lemma agree_for_each {A} (l : list A) (f f' : A → M unit) :
  (∀ x, agree (f x) (f' x)) → agree (for_each l f) (for_each l f').
Proof.
  intros H. induction l as [|x l IH]; [done |].
  simpl. apply agree_bind; [apply H | intros _; apply IH].
Qed.

Section Preservation.

Context (P : TravelPlanSolver → Prop).

Lemma preserves_ret {A} (a : A) : preserves P (mret a).
Proof. intros s H. exact H. Qed.

Lemma preserves_pure {A} (o : outcome A) : preserves P (pure o).
Proof. intros s H. exact H. Qed.

Lemma preserves_variable n : preserves P (variable n).
Proof. intros s H. exact H. Qed.

Lemma preserves_declared n : preserves P (declared n).
Proof. intros s H. exact H. Qed.

Lemma preserves_bind {A B} (m : M A) (f : A → M B) :
  preserves P m → (∀ a, preserves P (f a)) → preserves P (m ≫= f).
Proof.
  intros Hm Hf s H. rewrite run_bind.
  specialize (Hm s H). destruct (m s) as [s1 [a|e]]; simpl in *.
  - by apply Hf.
  - exact Hm.
Qed.

Lemma preserves_when c (m : M unit) : preserves P m → preserves P (when c m).
Proof. intros H. destruct c; [exact H | apply preserves_ret]. Qed.

Lemma preserves_for_each {A} (l : list A) (f : A → M unit) :
  (∀ x, preserves P (f x)) → preserves P (for_each l f).
Proof.
  intros H. induction l as [|x l IH]; simpl.
  - apply preserves_ret.
  - apply preserves_bind; [apply H | intros _; apply IH].
Qed.

End Preservation.

(** What the two recording methods do to [self]. *)

Lemma add_constraint_run f n h s :
  add_constraint f n h s =
    (Self (if h then Z3.add f (solver s) else Z3.assert_and_track f n (solver s))
          (variables s)
          (constraints s ++ [Constraint n f h])
          (<[n := f]> (constraint_names s)), Ok ()).
Proof. destruct h; reflexivity. Qed.

Lemma add_bounds_run n d s c :
  variables s !! n = Some c →
  add_bounds n d s =
    (Self (Z3.Solver
             (Z3.assertions (solver s)
                ++ from_option (λ lo, [Z3.Ge (Z3.Var c) (Z3.Num lo)]) [] (d !! "min")
                ++ from_option (λ hi, [Z3.Le (Z3.Var c) (Z3.Num hi)]) [] (d !! "max"))
             (Z3.tracked (solver s)))
          (variables s) (constraints s) (constraint_names s), Ok ()).
Proof.
  intros Hn. destruct s as [[a t] vs cs ns]. simpl in Hn.
  unfold add_bounds, variable, solver_add, modify, Z3.add.
  destruct (d !! "min") as [lo|], (d !! "max") as [hi|];
    unfold mbind, M_bind, mret, M_ret;
    repeat first [rewrite Hn | progress simpl];
    rewrite ?app_nil_r, <- ?app_assoc; reflexivity.
Qed.

Lemma add_variable_unbounded_real_run n s :
  add_variable n "real" None s =
    (Self (solver s) (<[n := Z3.Real n]> (variables s)) (constraints s)
          (constraint_names s), Ok ()).
Proof. reflexivity. Qed.

Lemma add_variable_bounded_run n ty d s :
  ty = "int" ∨ ty = "real" →
  domain_truthy (Some d) = true →
  let c := if String.eqb ty "int" then Z3.Int n else Z3.Real n in
  add_variable n ty (Some d) s =
    (Self (Z3.Solver
             (Z3.assertions (solver s)
                ++ from_option (λ lo, [Z3.Ge (Z3.Var c) (Z3.Num lo)]) [] (d !! "min")
                ++ from_option (λ hi, [Z3.Le (Z3.Var c) (Z3.Num hi)]) [] (d !! "max"))
             (Z3.tracked (solver s)))
          (<[n := c]> (variables s)) (constraints s) (constraint_names s), Ok ()).
Proof.
  intros Hty Hd c. unfold add_variable. rewrite Hd.
  assert (Hrun : ∀ s0, (set_variable n c;; add_bounds n d) s0 =
    (Self (Z3.Solver
             (Z3.assertions (solver s0)
                ++ from_option (λ lo, [Z3.Ge (Z3.Var c) (Z3.Num lo)]) [] (d !! "min")
                ++ from_option (λ hi, [Z3.Le (Z3.Var c) (Z3.Num hi)]) [] (d !! "max"))
             (Z3.tracked (solver s0)))
          (<[n := c]> (variables s0)) (constraints s0) (constraint_names s0), Ok ())).
  { intros s0. rewrite run_bind. unfold set_variable, modify.
    rewrite (add_bounds_run n d _ c); [reflexivity |]. simpl. apply lookup_insert_eq. }
  destruct Hty as [-> | ->]; simpl in *; apply Hrun.
Qed.

(** Every declaration leaves the ledger alone, appends assertions and
    at most binds its own name, to a constant of that name. *)
Lemma add_variable_effect n ty dom s :
  ∃ bounds vars,
    add_variable n ty dom s =
      (Self (Z3.Solver (Z3.assertions (solver s) ++ bounds) (Z3.tracked (solver s)))
            vars (constraints s) (constraint_names s), Ok ())
    ∧ (vars = variables s ∨ ∃ srt, vars = <[n := Z3.Const n srt]> (variables s)).
Proof.
  destruct s as [[a t] vs cs ns].
  assert (Hplain : ∀ srt, ∃ bounds vars,
    set_variable n (Z3.Const n srt) (Self (Z3.Solver a t) vs cs ns) =
      (Self (Z3.Solver (a ++ bounds) t) vars cs ns, Ok ())
    ∧ (vars = vs ∨ ∃ srt, vars = <[n := Z3.Const n srt]> vs)).
  { intros srt. exists [], (<[n := Z3.Const n srt]> vs). split; [| eauto].
    unfold set_variable, modify. simpl. by rewrite app_nil_r. }
  assert (Hnone : ∃ bounds vars,
    (@mret M _ _ ()) (Self (Z3.Solver a t) vs cs ns) =
      (Self (Z3.Solver (a ++ bounds) t) vars cs ns, Ok ())
    ∧ (vars = vs ∨ ∃ srt, vars = <[n := Z3.Const n srt]> vs)).
  { exists [], vs. split; [| by left]. unfold mret, M_ret. by rewrite app_nil_r. }
  unfold add_variable.
  destruct (String.eqb ty "int") eqn:Eint.
  { destruct (domain_truthy dom) eqn:Hd; [| apply Hplain].
    destruct dom as [d|]; [| discriminate]. simpl.
    pose proof (add_variable_bounded_run n "int" d (Self (Z3.Solver a t) vs cs ns)
                  (or_introl eq_refl) Hd) as Hrun.
    unfold add_variable in Hrun. rewrite Hd in Hrun. simpl in Hrun.
    eexists _, _. split; [exact Hrun |]. right. by eexists. }
  destruct (String.eqb ty "bool") eqn:Ebool; [apply Hplain |].
  destruct (String.eqb ty "real") eqn:Ereal; [| apply Hnone].
  destruct (domain_truthy dom) eqn:Hd; [| apply Hplain].
  destruct dom as [d|]; [| discriminate]. simpl.
  pose proof (add_variable_bounded_run n "real" d (Self (Z3.Solver a t) vs cs ns)
                (or_intror eq_refl) Hd) as Hrun.
  unfold add_variable in Hrun. rewrite Hd in Hrun. simpl in Hrun.
  eexists _, _. split; [exact Hrun |]. right. by eexists.
Qed.

Lemma add_variable_other n ty dom s k :
  k ≠ n → variables (add_variable n ty dom s).1 !! k = variables s !! k.
Proof.
  intros Hk. destruct (add_variable_effect n ty dom s) as (b & vars & -> & [-> | [srt ->]]);
    simpl; [done | by rewrite lookup_insert_ne].
Qed.

(** Walks through a method body, leaving the recording calls to [leaf]. *)
Ltac preserving leaf :=
  repeat first
    [ leaf
    | apply preserves_ret
    | apply preserves_pure
    | apply preserves_variable
    | apply preserves_declared
    | apply preserves_when
    | apply preserves_for_each; intros ?
    | apply preserves_bind; [| intros ?]
    | match goal with
      | |- preserves _ (if ?c then _ else _) => destruct c
      | |- preserves _ (match ?x with _ => _ end) => destruct x
      end ].

Ltac unfold_blocks :=
  unfold _formalize_problem, formalize_dates, formalize_budget,
    formalize_accommodation, formalize_activity_cost, formalize_total,
    cost_component, formalize_preferences, formalize_preference,
    formalize_hotel, formalize_scheduling;
  cbv zeta.

(** *** Only hard constraints *)

Lemma hard_only_add_variable n ty dom : preserves hard_only (add_variable n ty dom).
Proof.
  intros s [Hc Ht].
  destruct (add_variable_effect n ty dom s) as (bounds & vars & -> & _).
  split; assumption.
Qed.

Lemma hard_only_add_constraint f n : preserves hard_only (add_constraint f n true).
Proof.
  intros s [Hc Ht]. rewrite add_constraint_run. split; simpl.
  - apply Forall_app. split; [exact Hc | by constructor].
  - exact Ht.
Qed.

Lemma hard_only_formalize rt data : preserves hard_only (_formalize_problem rt data).
Proof.
  unfold_blocks.
  preserving ltac:(first [apply hard_only_add_variable | apply hard_only_add_constraint]).
Qed.

Lemma hard_only_init : hard_only __init__.
Proof. split; [constructor | reflexivity]. Qed.

(** *** The four results *)

Lemma session_cases rt data :
  let st := (_formalize_problem rt data __init__).1 in
  session rt data =
    match (_formalize_problem rt data __init__).2 with
    | Raise e => Error e (elapsed_ms rt)
    | Ok _ =>
        match z3_check rt (solver st) with
        | Raise e => Error e (elapsed_ms rt)
        | Ok Z3.sat =>
            Satisfiable (_extract_solution (z3_model rt (solver st)) st)
              (elapsed_ms rt) (length (constraints st))
        | Ok Z3.unsat =>
            Unsatisfiable (_get_unsat_core rt st) (elapsed_ms rt) (length (constraints st))
        | Ok Z3.unknown => Timeout (elapsed_ms rt)
        end
    end.
Proof.
  unfold session, solve_travel_plan.
  destruct (_formalize_problem rt data __init__) as [st [[]|e]]; simpl; [| reflexivity].
  destruct (z3_check rt (solver st)) as [[]|e]; reflexivity.
Qed.

Lemma unsat_core_empty rt data :
  core_of_tracked rt (solver (_formalize_problem rt data __init__).1) →
  _get_unsat_core rt (_formalize_problem rt data __init__).1 = [].
Proof.
  intros Hcore.
  destruct (hard_only_formalize rt data __init__ hard_only_init) as [_ Ht].
  unfold _get_unsat_core.
  destruct (z3_unsat_core rt (solver (_formalize_problem rt data __init__).1))
    as [core|e] eqn:E; [| reflexivity].
  destruct core as [|c core]; [reflexivity |].
  specialize (Hcore _ E c (list_elem_of_here _ _)).
  rewrite Ht in Hcore. inversion Hcore.
Qed.

(** C9. Every constraint that formalization records is hard, the solver
    holds no tracked assertion, and, a core naming tracked assertions only,
    the [unsat_core] of every unsatisfiable result is the empty list. *)
Theorem C9_only_hard_constraints rt data :
  let st := (_formalize_problem rt data __init__).1 in
  core_of_tracked rt (solver st) →
  Forall (λ c, is_hard c = true) (constraints st)
  ∧ Z3.tracked (solver st) = []
  ∧ ∀ core t n, session rt data = Unsatisfiable core t n → core = [].
Proof.
  intros st Hcore.
  destruct (hard_only_formalize rt data __init__ hard_only_init) as [Hc Ht].
  fold st in Hc, Ht. split; [exact Hc |]. split; [exact Ht |].
  intros core t n. rewrite session_cases. fold st.
  destruct (_formalize_problem rt data __init__).2 as [[]|e]; [| discriminate].
  destruct (z3_check rt (solver st)) as [[]|e]; try discriminate.
  intros [= <- _ _]. by apply unsat_core_empty.
Qed.

Lemma scenario_core_of_tracked candidate s :
  core_of_tracked (scenario_runtime candidate) s.
Proof. intros core E c Hc. injection E as <-. exact Hc. Qed.

Lemma C9_only_hard_constraints_witness :
  core_of_tracked (scenario_runtime ∅)
    (solver (_formalize_problem (scenario_runtime ∅) zurich __init__).1)
  ∧ (Forall (λ c, is_hard c = true)
       (constraints (_formalize_problem (scenario_runtime ∅) zurich __init__).1)
     ∧ Z3.tracked (solver (_formalize_problem (scenario_runtime ∅) zurich __init__).1) = []
     ∧ ∀ core t n,
         session (scenario_runtime ∅) zurich = Unsatisfiable core t n → core = []).
Proof.
  split; [apply scenario_core_of_tracked |].
  apply C9_only_hard_constraints.
  apply scenario_core_of_tracked.
Defined.

Lemma solve_cases rt data self :
  let run := _formalize_problem rt data self in
  solve_travel_plan rt data self =
    (run.1,
     match run.2 with
     | Raise e => Error e (elapsed_ms rt)
     | Ok _ =>
         match z3_check rt (solver run.1) with
         | Raise e => Error e (elapsed_ms rt)
         | Ok Z3.sat =>
             Satisfiable (_extract_solution (z3_model rt (solver run.1)) run.1)
               (elapsed_ms rt) (length (constraints run.1))
         | Ok Z3.unsat =>
             Unsatisfiable (_get_unsat_core rt run.1) (elapsed_ms rt)
               (length (constraints run.1))
         | Ok Z3.unknown => Timeout (elapsed_ms rt)
         end
     end).
Proof.
  unfold solve_travel_plan.
  destruct (_formalize_problem rt data self) as [st [[]|e]]; simpl; [| reflexivity].
  destruct (z3_check rt (solver st)) as [[]|e]; reflexivity.
Qed.

Lemma extract_solution_lookup model self var_name :
  _extract_solution model self !! var_name =
    match variables self !! var_name with
    | Some var =>
        match model !! Z3.const_name var with
        | Some value => Some (match decode var value with
                              | Ok v => v
                              | Raise _ => PyNone
                              end)
        | None => None
        end
    | None => None
    end.
Proof.
  unfold _extract_solution. rewrite map_lookup_imap.
  destruct (variables self !! var_name); reflexivity.
Qed.

(** C6. On every parsed document and from every state of the instance,
    [solve_travel_plan] returns exactly one of the four results, each with
    the elapsed time in whole milliseconds. An exception of formalization
    or of the solver becomes the error result; a variable whose decoding
    raises is reported as [None] in the solution; a solver that cannot
    produce a core gives the empty core. *)
Theorem C6_every_exception_is_caught rt document self :
  status (solve_parsed rt document self).2
    ∈ ["satisfiable"; "unsatisfiable"; "timeout"; "error"]
  ∧ execution_time (solve_parsed rt document self).2
    = Py.int ((time_time rt 1 - time_time rt 0) * 1000)
  ∧ ((∀ data, document ≠ JObj data) →
     (solve_parsed rt document self).2 = Error Exception (elapsed_ms rt))
  ∧ (∀ data e, document = JObj data →
       (_formalize_problem rt data self).2 = Raise e →
       (solve_parsed rt document self).2 = Error e (elapsed_ms rt))
  ∧ (∀ data e, document = JObj data →
       (_formalize_problem rt data self).2 = Ok () →
       z3_check rt (solver (_formalize_problem rt data self).1) = Raise e →
       (solve_parsed rt document self).2 = Error e (elapsed_ms rt))
  ∧ (∀ data answer, document = JObj data →
       (_formalize_problem rt data self).2 = Ok () →
       z3_check rt (solver (_formalize_problem rt data self).1) = Ok answer →
       status (solve_parsed rt document self).2
       = match answer with
         | Z3.sat => "satisfiable"
         | Z3.unsat => "unsatisfiable"
         | Z3.unknown => "timeout"
         end)
  ∧ (∀ model s var_name var value e,
       variables s !! var_name = Some var →
       model !! Z3.const_name var = Some value →
       decode var value = Raise e →
       _extract_solution model s !! var_name = Some PyNone)
  ∧ (∀ s e, z3_unsat_core rt (solver s) = Raise e → _get_unsat_core rt s = []).
Proof.
  assert (Hstatus : ∀ x : result,
    status x ∈ ["satisfiable"; "unsatisfiable"; "timeout"; "error"]).
  { intros []; cbn [status]; set_solver. }
  assert (Htime : execution_time (solve_parsed rt document self).2 = elapsed_ms rt).
  { destruct document; try reflexivity. cbn [solve_parsed]. rewrite solve_cases. cbn [snd].
    destruct (_formalize_problem rt m self).2 as [[]|e]; [| reflexivity].
    destruct (z3_check rt (solver (_formalize_problem rt m self).1)) as [[]|e];
      reflexivity. }
  split; [apply Hstatus |]. split; [exact Htime |]. split.
  { intros Hno. destruct document; try reflexivity. by destruct (Hno m). }
  split.
  { intros data e -> He. cbn [solve_parsed]. rewrite solve_cases. cbn [snd].
    by rewrite He. }
  split.
  { intros data e -> Hok He. cbn [solve_parsed]. rewrite solve_cases. cbn [snd].
    by rewrite Hok, He. }
  split.
  { intros data answer -> Hok Ha. cbn [solve_parsed]. rewrite solve_cases. cbn [snd].
    rewrite Hok, Ha. by destruct answer. }
  split.
  { intros model s var_name var value e Hvar Hval Hdec.
    by rewrite extract_solution_lookup, Hvar, Hval, Hdec. }
  intros s e He. unfold _get_unsat_core. by rewrite He.
Qed.

(** C7. The empty trip description declares no variable and records no
    constraint; a solver that decides the empty problem and is right about
    it reports it satisfiable, and the result is the satisfiable one with
    no constraint counted and the empty solution. *)
Theorem C7_empty_input rt :
  unsat_sound rt (Z3.Solver [] []) →
  decides rt (Z3.Solver [] []) →
  _formalize_problem rt ∅ __init__ = (__init__, Ok ())
  ∧ variables (_formalize_problem rt ∅ __init__).1 = ∅
  ∧ constraints (_formalize_problem rt ∅ __init__).1 = []
  ∧ session rt ∅ = Satisfiable ∅ (elapsed_ms rt) 0.
Proof.
  intros Hsound Hdec.
  assert (Hrun : _formalize_problem rt ∅ __init__ = (__init__, Ok ())).
  { unfold_blocks. unfold Py.get, Py.get_or. rewrite !lookup_empty. reflexivity. }
  split; [exact Hrun |]. rewrite session_cases, Hrun. cbn [fst snd].
  split; [reflexivity |]. split; [reflexivity |].
  change (solver __init__) with (Z3.Solver [] []).
  destruct Hdec as [-> | Hunsat].
  - unfold _extract_solution. change (variables __init__) with (∅ : gmap string Z3.const).
    by rewrite map_imap_empty.
  - specialize (Hsound Hunsat ∅). discriminate Hsound.
Qed.

Lemma C7_empty_input_witness :
  unsat_sound (scenario_runtime ∅) (Z3.Solver [] [])
  ∧ decides (scenario_runtime ∅) (Z3.Solver [] [])
  ∧ session (scenario_runtime ∅) ∅ = Satisfiable ∅ (elapsed_ms (scenario_runtime ∅)) 0.
Proof.
  assert (Hs : unsat_sound (scenario_runtime ∅) (Z3.Solver [] [])).
  { intros E. discriminate E. }
  assert (Hd : decides (scenario_runtime ∅) (Z3.Solver [] [])).
  { left. reflexivity. }
  split; [exact Hs |]. split; [exact Hd |].
  apply (C7_empty_input (scenario_runtime ∅) Hs Hd).
Defined.

(** *** The solution of a satisfiable result *)

Lemma named_after_key_add_variable n ty dom :
  preserves named_after_key (add_variable n ty dom).
Proof.
  intros s H.
  destruct (add_variable_effect n ty dom s) as (b & vars & -> & [-> | [srt ->]]);
    simpl; [exact H |].
  intros k v. cbn [variables]. destruct (decide (n = k)) as [-> | Hne].
  - rewrite lookup_insert_eq. by intros [= <-].
  - rewrite lookup_insert_ne by done. apply H.
Qed.

Lemma named_after_key_add_constraint f n :
  preserves named_after_key (add_constraint f n true).
Proof. intros s H. rewrite add_constraint_run. exact H. Qed.

Lemma named_after_key_formalize rt data :
  preserves named_after_key (_formalize_problem rt data).
Proof.
  unfold_blocks.
  preserving ltac:(first [ apply named_after_key_add_variable
                         | apply named_after_key_add_constraint ]).
Qed.

Lemma named_after_key_init : named_after_key __init__.
Proof. intros k v H. change (variables __init__) with (∅ : gmap string Z3.const) in H.
  by rewrite lookup_empty in H. Qed.

(** C2, as the code has it. In a satisfiable result the keys of the
    solution are the declared variables that the model gives a value; such
    a variable maps to its decoded value, or to [None] when decoding raises;
    a declared variable without a value in the model is left out. *)
Theorem C2_solution_keys rt data sol t n :
  session rt data = Satisfiable sol t n →
  (∀ var_name,
      is_Some (sol !! var_name) ↔
      is_Some (variables (_formalize_problem rt data __init__).1 !! var_name)
      ∧ is_Some (z3_model rt (solver (_formalize_problem rt data __init__).1) !! var_name))
  ∧ (∀ var_name var value,
      variables (_formalize_problem rt data __init__).1 !! var_name = Some var →
      z3_model rt (solver (_formalize_problem rt data __init__).1) !! var_name = Some value →
      sol !! var_name = Some (match decode var value with
                              | Ok v => v
                              | Raise _ => PyNone
                              end)).
Proof.
  rewrite session_cases.
  pose proof (named_after_key_formalize rt data __init__ named_after_key_init) as Hkey.
  set (st := (_formalize_problem rt data __init__).1) in *.
  destruct (_formalize_problem rt data __init__).2 as [[]|e]; [| discriminate].
  destruct (z3_check rt (solver st)) as [[]|e]; try discriminate.
  intros [= <- _ _]. split.
  - intros var_name. rewrite extract_solution_lookup.
    destruct (variables st !! var_name) as [var|] eqn:Hvar.
    + rewrite (Hkey _ _ Hvar).
      destruct (z3_model rt (solver st) !! var_name); split;
        intros H; try (split; by eauto); try by eauto.
      * by destruct H as [_ [? ?]].
    + split; [intros [? ?]; discriminate | intros [[? ?] _]; discriminate].
  - intros var_name var value Hvar Hval.
    rewrite extract_solution_lookup, Hvar, (Hkey _ _ Hvar), Hval. reflexivity.
Qed.

(** Runs a session on a closed input: the outcome of formalization and
    the answer of the solver are evaluated, the state is left as it is. *)
Ltac run_session :=
  rewrite session_cases;
  match goal with
  | |- context [(_formalize_problem ?rt ?data __init__).2] =>
      replace ((_formalize_problem rt data __init__).2) with (@Ok unit ())
        by (vm_compute; reflexivity);
      replace (z3_check rt (solver (_formalize_problem rt data __init__).1))
        with (Ok (certifying_check (z3_model rt (Z3.Solver [] []))
                    (solver (_formalize_problem rt data __init__).1)))
        by reflexivity;
      match goal with
      | |- context [certifying_check ?m ?s] =>
          let r := eval vm_compute in (certifying_check m s) in
          replace (certifying_check m s) with r by (vm_compute; reflexivity)
      end
  end;
  cbv beta iota.

Lemma scenario_session_vienna :
  session (scenario_runtime vienna_model) vienna =
    Satisfiable
      (_extract_solution vienna_model
         (_formalize_problem (scenario_runtime vienna_model) vienna __init__).1)
      12 8.
Proof. run_session. f_equal. Qed.

Lemma C2_solution_keys_witness :
  session (scenario_runtime vienna_model) vienna =
    Satisfiable
      (_extract_solution vienna_model
         (_formalize_problem (scenario_runtime vienna_model) vienna __init__).1)
      12 8
  ∧ (∀ var_name,
      is_Some (_extract_solution vienna_model
         (_formalize_problem (scenario_runtime vienna_model) vienna __init__).1 !! var_name) ↔
      is_Some (variables (_formalize_problem (scenario_runtime vienna_model) vienna __init__).1
                 !! var_name)
      ∧ is_Some (vienna_model !! var_name)).
Proof.
  split; [exact scenario_session_vienna |].
  exact (proj1 (C2_solution_keys (scenario_runtime vienna_model) vienna _ _ _
                  scenario_session_vienna)).
Defined.

(** C2, as the claim has it, fails on the last scenario of
    [test-solver.py]: the preference flag is declared, no assertion
    mentions it, the model that satisfies the assertions has no value for
    it, and the solution of the satisfiable result has no such key. *)
Lemma C2_counterexample :
  status (session (scenario_runtime vienna_model) vienna) = "satisfiable"
  ∧ Z3.satisfies vienna_model
      (solver (_formalize_problem (scenario_runtime vienna_model) vienna __init__).1) = true
  ∧ variables (_formalize_problem (scenario_runtime vienna_model) vienna __init__).1
      !! "preference_1_dining" = Some (Z3.Bool "preference_1_dining")
  ∧ vienna_model !! "preference_1_dining" = None
  ∧ ∃ sol, solution_of (session (scenario_runtime vienna_model) vienna) = Some sol
           ∧ sol !! "preference_1_dining" = None.
Proof.
  split; [vm_compute; reflexivity |].
  split; [vm_compute; reflexivity |].
  split; [vm_compute; reflexivity |].
  split; [vm_compute; reflexivity |].
  rewrite scenario_session_vienna. eexists. split; [reflexivity |].
  rewrite extract_solution_lookup.
  replace (variables (_formalize_problem (scenario_runtime vienna_model) vienna __init__).1
             !! "preference_1_dining")
    with (Some (Z3.Bool "preference_1_dining")) by (vm_compute; reflexivity).
  reflexivity.
Qed.

(** *** Names in the ledger *)

Lemma distinct_le_length (l : list string) :
  (length (remove_dups l) ≤ length l)%nat.
Proof.
  apply submseteq_length, NoDup_submseteq; [apply NoDup_remove_dups |].
  intros x. by rewrite elem_of_remove_dups.
Qed.

Lemma distinct_eq_length (l : list string) :
  NoDup l ↔ length l = length (remove_dups l).
Proof.
  split.
  - induction 1 as [|x l Hx Hl IH]; [reflexivity |].
    simpl. destruct (decide_rel elem_of x l); [done |]. simpl. by rewrite IH.
  - intros Hlen.
    assert (Hsub : remove_dups l ⊆+ l).
    { apply NoDup_submseteq; [apply NoDup_remove_dups |].
      intros x. by rewrite elem_of_remove_dups. }
    apply submseteq_length_Permutation in Hsub; [| lia].
    rewrite <- Hsub. apply NoDup_remove_dups.
Qed.

(** C3, as the code has it. Recording a constraint under a name that is
    already used does not fail: the call returns normally, the ledger gets
    one more record under that name, and the entry of [constraint_names] is
    overwritten. Declaring a variable never fails either, whatever was
    declared before. *)
Theorem C3_duplicate_name_is_recorded f n h s :
  n ∈ recorded_names s →
  (∃ s', add_constraint f n h s = (s', Ok ())
         ∧ recorded_names s' = recorded_names s ++ [n]
         ∧ constraint_names s' !! n = Some f
         ∧ ¬ NoDup (recorded_names s'))
  ∧ ∀ v ty dom, (add_variable v ty dom s).2 = Ok ().
Proof.
  intros Hn. split.
  - rewrite add_constraint_run. eexists. split; [reflexivity |].
    unfold recorded_names. cbn [constraints constraint_names].
    rewrite fmap_app. cbn [fmap list_fmap name].
    split; [reflexivity |]. split; [apply lookup_insert_eq |].
    rewrite NoDup_app. intros (_ & Hdis & _).
    apply (Hdis n Hn). apply list_elem_of_here.
  - intros v ty dom.
    by destruct (add_variable_effect v ty dom s) as (b & vars & -> & _).
Qed.

Lemma C3_duplicate_name_is_recorded_witness :
  "budget_preference_considered"
    ∈ recorded_names (_formalize_problem (scenario_runtime thrifty_model) thrifty __init__).1
  ∧ ∃ s',
      add_constraint (Z3.IsBool (Z3.Bool "preference_2_budget") true)
        "budget_preference_considered" true
        (_formalize_problem (scenario_runtime thrifty_model) thrifty __init__).1 = (s', Ok ())
      ∧ recorded_names s' =
          recorded_names (_formalize_problem (scenario_runtime thrifty_model) thrifty __init__).1
            ++ ["budget_preference_considered"]
      ∧ constraint_names s' !! "budget_preference_considered" =
          Some (Z3.IsBool (Z3.Bool "preference_2_budget") true)
      ∧ ¬ NoDup (recorded_names s').
Proof.
  assert (H : "budget_preference_considered"
    ∈ recorded_names (_formalize_problem (scenario_runtime thrifty_model) thrifty __init__).1).
  { replace (recorded_names (_formalize_problem (scenario_runtime thrifty_model) thrifty __init__).1)
      with ["budget_preference_considered"; "budget_preference_considered"]
      by (vm_compute; reflexivity).
    apply list_elem_of_here. }
  split; [exact H |].
  exact (proj1 (C3_duplicate_name_is_recorded _ _ _ _ H)).
Defined.

Lemma scenario_session_thrifty :
  session (scenario_runtime thrifty_model) thrifty =
    Satisfiable
      (_extract_solution thrifty_model
         (_formalize_problem (scenario_runtime thrifty_model) thrifty __init__).1)
      12 2.
Proof. run_session. f_equal. Qed.

(** C3, as the claim has it, fails when the tag "budget" comes twice: the
    second [add_constraint] reuses the name of the first, formalization
    returns normally with both records, and the result is satisfiable, not
    an error. *)
Lemma C3_counterexample :
  (_formalize_problem (scenario_runtime thrifty_model) thrifty __init__).2 = Ok ()
  ∧ recorded_names (_formalize_problem (scenario_runtime thrifty_model) thrifty __init__).1
    = ["budget_preference_considered"; "budget_preference_considered"]
  ∧ Z3.satisfies thrifty_model
      (solver (_formalize_problem (scenario_runtime thrifty_model) thrifty __init__).1) = true
  ∧ status (session (scenario_runtime thrifty_model) thrifty) = "satisfiable".
Proof.
  split; [vm_compute; reflexivity |].
  split; [vm_compute; reflexivity |].
  split; [vm_compute; reflexivity |].
  rewrite scenario_session_thrifty. reflexivity.
Qed.

Lemma indexed_add_variable n ty dom : preserves indexed (add_variable n ty dom).
Proof.
  intros s H. destruct (add_variable_effect n ty dom s) as (b & vars & -> & _). exact H.
Qed.

Lemma indexed_add_constraint f n : preserves indexed (add_constraint f n true).
Proof.
  intros s H. rewrite add_constraint_run. unfold indexed, recorded_names in *.
  cbn [fst constraints constraint_names].
  rewrite dom_insert_L, H, fmap_app, list_to_set_app_L. cbn [fmap list_fmap name].
  apply set_eq. intros x.
  rewrite !elem_of_union, !elem_of_list_to_set, list_elem_of_singleton, elem_of_singleton.
  tauto.
Qed.

Lemma indexed_formalize rt data : preserves indexed (_formalize_problem rt data).
Proof.
  unfold_blocks.
  preserving ltac:(first [apply indexed_add_variable | apply indexed_add_constraint]).
Qed.

Lemma indexed_init : indexed __init__.
Proof. apply dom_empty_L. Qed.

Lemma indexed_size s : indexed s → size (constraint_names s) = distinct_names s.
Proof.
  intros H. unfold distinct_names.
  rewrite <- size_dom, H.
  rewrite <- (size_list_to_set (C := gset string) (remove_dups (recorded_names s)))
    by apply NoDup_remove_dups.
  f_equal. apply set_eq. intros x.
  rewrite !elem_of_list_to_set. by rewrite elem_of_remove_dups.
Qed.

(** C4, as the code has it. The [constraints_count] of a satisfiable or
    unsatisfiable result is the number of records in the ledger; the number
    of distinct names is the size of [constraint_names]; the count is never
    below it, and equals it exactly when no name was recorded twice. *)
Theorem C4_constraints_count rt data n :
  constraints_count_of (session rt data) = Some n →
  n = length (constraints (_formalize_problem rt data __init__).1)
  ∧ size (constraint_names (_formalize_problem rt data __init__).1)
    = distinct_names (_formalize_problem rt data __init__).1
  ∧ (distinct_names (_formalize_problem rt data __init__).1 ≤ n)%nat
  ∧ (NoDup (recorded_names (_formalize_problem rt data __init__).1) ↔
     n = distinct_names (_formalize_problem rt data __init__).1).
Proof.
  rewrite session_cases.
  pose proof (indexed_size _ (indexed_formalize rt data __init__ indexed_init)) as Hsize.
  set (st := (_formalize_problem rt data __init__).1) in *.
  assert (Hlen : length (recorded_names st) = length (constraints st)).
  { unfold recorded_names. apply length_fmap. }
  intros Hn.
  assert (n = length (constraints st)) as ->.
  { destruct (_formalize_problem rt data __init__).2 as [[]|e]; [| discriminate].
    destruct (z3_check rt (solver st)) as [[]|e]; try discriminate;
      by injection Hn as <-. }
  split; [reflexivity |]. split; [exact Hsize |].
  unfold distinct_names. rewrite <- Hlen.
  split; [apply distinct_le_length | apply distinct_eq_length].
Qed.

Lemma C4_constraints_count_witness :
  constraints_count_of (session (scenario_runtime vienna_model) vienna) = Some 8
  ∧ 8 = length (constraints (_formalize_problem (scenario_runtime vienna_model) vienna __init__).1)
  ∧ size (constraint_names (_formalize_problem (scenario_runtime vienna_model) vienna __init__).1)
    = distinct_names (_formalize_problem (scenario_runtime vienna_model) vienna __init__).1
  ∧ (distinct_names (_formalize_problem (scenario_runtime vienna_model) vienna __init__).1 ≤ 8)%nat
  ∧ (NoDup (recorded_names (_formalize_problem (scenario_runtime vienna_model) vienna __init__).1) ↔
     8 = distinct_names (_formalize_problem (scenario_runtime vienna_model) vienna __init__).1).
Proof.
  assert (H : constraints_count_of (session (scenario_runtime vienna_model) vienna) = Some 8).
  { rewrite scenario_session_vienna. reflexivity. }
  split; [exact H |].
  exact (C4_constraints_count _ _ _ H).
Defined.

(** C4, as the claim has it, fails on the same input: two records, one
    distinct name. *)
Lemma C4_counterexample :
  constraints_count_of (session (scenario_runtime thrifty_model) thrifty) = Some 2
  ∧ distinct_names (_formalize_problem (scenario_runtime thrifty_model) thrifty __init__).1 = 1
  ∧ size (constraint_names
            (_formalize_problem (scenario_runtime thrifty_model) thrifty __init__).1) = 1.
Proof.
  split; [rewrite scenario_session_thrifty; reflexivity |].
  split; vm_compute; reflexivity.
Qed.

(** *** Numbers, minima and maxima *)

Lemma num_mul_value a b : (Py.num_Q (Py.num_mul a b) == Py.num_Q a * Py.num_Q b)%Q.
Proof.
  destruct a as [x|x], b as [y|y]; simpl; try reflexivity.
  all: unfold Qeq, inject_Z; simpl; lia.
Qed.

Lemma num_lt_true a b : Py.num_lt a b = true → (Py.num_Q a < Py.num_Q b)%Q.
Proof.
  unfold Py.num_lt. intros H. apply negb_true_iff in H.
  apply Qnot_le_lt. intros Hle. apply Qle_bool_iff in Hle. congruence.
Qed.

Lemma num_lt_false a b : Py.num_lt a b = false → (Py.num_Q b <= Py.num_Q a)%Q.
Proof.
  unfold Py.num_lt. intros H. apply negb_false_iff in H. by apply Qle_bool_iff.
Qed.

Lemma mul_numbers a b x y :
  Py.as_num a = Some x → Py.as_num b = Some y →
  Py.mul a b = Ok (Py.of_num (Py.num_mul x y)).
Proof. intros Ha Hb. unfold Py.mul. rewrite Ha, Hb. reflexivity. Qed.

Lemma numeral_of_num rt n : numeral rt (Py.of_num n) = Ok (Py.num_Q n).
Proof. destruct n; reflexivity. Qed.

Lemma min_from_numbers c0 n0 costs prices :
  Py.as_num c0 = Some n0 →
  Forall2 (λ c p, Py.as_num c = Some p) costs prices →
  ∃ c lo, Py.min_from c0 costs = Ok c ∧ Py.as_num c = Some lo ∧ lowest (n0 :: prices) lo.
Proof.
  intros H0 Hall. revert c0 n0 H0.
  induction Hall as [|y p costs prices Hy _ IH]; intros c0 n0 H0.
  - exists c0, n0. split; [reflexivity |]. split; [exact H0 |].
    split; [apply list_elem_of_here |].
    intros q Hq. apply list_elem_of_singleton in Hq as ->. apply Qle_refl.
  - simpl. unfold Py.lt. rewrite Hy, H0. simpl.
    destruct (Py.num_lt p n0) eqn:Hlt.
    + destruct (IH y p Hy) as (c & lo & Hrun & Hc & Hin & Hle).
      exists c, lo. split; [exact Hrun |]. split; [exact Hc |]. split.
      * apply elem_of_cons in Hin as [-> | Hin];
          [apply list_elem_of_further, list_elem_of_here
          | by do 2 apply list_elem_of_further].
      * intros q Hq. apply elem_of_cons in Hq as [-> | Hq]; [| by apply Hle].
        apply Qle_trans with (Py.num_Q p);
          [apply Hle, list_elem_of_here | apply Qlt_le_weak, num_lt_true, Hlt].
    + destruct (IH c0 n0 H0) as (c & lo & Hrun & Hc & Hin & Hle).
      exists c, lo. split; [exact Hrun |]. split; [exact Hc |]. split.
      * apply elem_of_cons in Hin as [-> | Hin];
          [apply list_elem_of_here | by do 2 apply list_elem_of_further].
      * intros q Hq. apply elem_of_cons in Hq as [-> | Hq];
          [apply Hle, list_elem_of_here |].
        apply elem_of_cons in Hq as [-> | Hq];
          [| by apply Hle, list_elem_of_further].
        apply Qle_trans with (Py.num_Q n0);
          [apply Hle, list_elem_of_here | apply num_lt_false, Hlt].
Qed.

Lemma max_from_numbers c0 n0 costs prices :
  Py.as_num c0 = Some n0 →
  Forall2 (λ c p, Py.as_num c = Some p) costs prices →
  ∃ c hi, Py.max_from c0 costs = Ok c ∧ Py.as_num c = Some hi ∧ highest (n0 :: prices) hi.
Proof.
  intros H0 Hall. revert c0 n0 H0.
  induction Hall as [|y p costs prices Hy _ IH]; intros c0 n0 H0.
  - exists c0, n0. split; [reflexivity |]. split; [exact H0 |].
    split; [apply list_elem_of_here |].
    intros q Hq. apply list_elem_of_singleton in Hq as ->. apply Qle_refl.
  - simpl. unfold Py.lt. rewrite Hy, H0. simpl.
    destruct (Py.num_lt n0 p) eqn:Hlt.
    + destruct (IH y p Hy) as (c & hi & Hrun & Hc & Hin & Hle).
      exists c, hi. split; [exact Hrun |]. split; [exact Hc |]. split.
      * apply elem_of_cons in Hin as [-> | Hin];
          [apply list_elem_of_further, list_elem_of_here
          | by do 2 apply list_elem_of_further].
      * intros q Hq. apply elem_of_cons in Hq as [-> | Hq]; [| by apply Hle].
        apply Qle_trans with (Py.num_Q p);
          [apply Qlt_le_weak, num_lt_true, Hlt | apply Hle, list_elem_of_here].
    + destruct (IH c0 n0 H0) as (c & hi & Hrun & Hc & Hin & Hle).
      exists c, hi. split; [exact Hrun |]. split; [exact Hc |]. split.
      * apply elem_of_cons in Hin as [-> | Hin];
          [apply list_elem_of_here | by do 2 apply list_elem_of_further].
      * intros q Hq. apply elem_of_cons in Hq as [-> | Hq];
          [apply Hle, list_elem_of_here |].
        apply elem_of_cons in Hq as [-> | Hq];
          [| by apply Hle, list_elem_of_further].
        apply Qle_trans with (Py.num_Q n0);
          [apply num_lt_false, Hlt | apply Hle, list_elem_of_here].
Qed.

Lemma hotel_costs_priced hotels prices :
  Forall2 priced hotels prices →
  ∃ costs, hotel_costs_of (JList hotels) = Ok costs
           ∧ Forall2 (λ c p, Py.as_num c = Some p) costs prices.
Proof.
  unfold hotel_costs_of. simpl.
  induction 1 as [|h p hotels prices (m & -> & Hp) _ (costs & Hrun & Hall)].
  - exists []. split; [reflexivity | constructor].
  - exists (Py.get_or m "price_per_night" (JInt 100) :: costs). split.
    + simpl. rewrite Hrun. reflexivity.
    + by constructor.
Qed.

(** Among integers the least and the greatest price are integers. *)
Lemma lowest_of_ints (prices : list Z) lo :
  lowest (Py.NInt <$> prices) lo →
  ∃ z, lo = Py.NInt z ∧ z ∈ prices ∧ ∀ p, p ∈ prices → (z ≤ p)%Z.
Proof.
  intros [Hin Hle]. apply list_elem_of_fmap in Hin as (z & -> & Hz).
  exists z. split; [reflexivity |]. split; [exact Hz |].
  intros p Hp. rewrite Zle_Qle. apply (Hle (Py.NInt p)).
  by apply list_elem_of_fmap_2.
Qed.

Lemma highest_of_ints (prices : list Z) hi :
  highest (Py.NInt <$> prices) hi →
  ∃ z, hi = Py.NInt z ∧ z ∈ prices ∧ ∀ p, p ∈ prices → (p ≤ z)%Z.
Proof.
  intros [Hin Hle]. apply list_elem_of_fmap in Hin as (z & -> & Hz).
  exists z. split; [reflexivity |]. split; [exact Hz |].
  intros p Hp. rewrite Zle_Qle. apply (Hle (Py.NInt p)).
  by apply list_elem_of_fmap_2.
Qed.

Lemma lowest_int (prices : list Z) z :
  z ∈ prices → (∀ p, p ∈ prices → (z ≤ p)%Z) → lowest (Py.NInt <$> prices) (Py.NInt z).
Proof.
  intros Hin Hle. split; [by apply list_elem_of_fmap_2 |].
  intros p Hp. apply list_elem_of_fmap in Hp as (y & -> & Hy).
  cbn [Py.num_Q]. rewrite <- Zle_Qle. by apply Hle.
Qed.

(** *** Running the accommodation block *)

Lemma variable_run n s v : variables s !! n = Some v → variable n s = (s, Ok v).
Proof. intros H. unfold variable. by rewrite H. Qed.

Lemma get_lookup (data : gmap string json) k v : data !! k = Some v → Py.get data k = v.
Proof. intros H. unfold Py.get. by rewrite H. Qed.

Lemma index_lookup (data : gmap string json) k v :
  data !! k = Some v → Py.index data k = Ok v.
Proof. intros H. unfold Py.index. by rewrite H. Qed.

Lemma outcome_bind_ok {A B} (a : A) (f : A → outcome B) : (Ok a ≫= f) = f a.
Proof. reflexivity. Qed.

Lemma add_variable_lower_bound_run n lo s :
  add_variable n "real" (Some {[ "min" := lo ]}) s =
    (Self (Z3.Solver (Z3.assertions (solver s) ++ [Z3.Ge (Z3.Var (Z3.Real n)) (Z3.Num lo)])
             (Z3.tracked (solver s)))
          (<[n := Z3.Real n]> (variables s)) (constraints s) (constraint_names s), Ok ()).
Proof.
  assert (Hd : domain_truthy (Some ({[ "min" := lo ]} : gmap string Q)) = true).
  { unfold domain_truthy. by rewrite map_size_singleton. }
  rewrite (add_variable_bounded_run n "real" _ s (or_intror eq_refl) Hd).
  rewrite lookup_singleton_eq, lookup_singleton_ne by done. reflexivity.
Qed.

Lemma accommodation_run rt data hotels prices d s :
  data !! "hotels" = Some (JList hotels) →
  hotels ≠ [] →
  Forall2 priced hotels prices →
  Py.as_num (Py.get_or data "duration" (JInt 3)) = Some d →
  ∃ lo hi,
    lowest prices lo ∧ highest prices hi
    ∧ formalize_accommodation rt data s =
        (Self (Z3.Solver
                 (Z3.assertions (solver s)
                    ++ [Z3.Ge accommodation_cost (Z3.Num 0);
                        accommodation_cost_range lo hi d])
                 (Z3.tracked (solver s)))
              (<["accommodation_cost" := Z3.Real "accommodation_cost"]> (variables s))
              (constraints s
                 ++ [Constraint "accommodation_cost_range"
                       (accommodation_cost_range lo hi d) true])
              (<["accommodation_cost_range" := accommodation_cost_range lo hi d]>
                 (constraint_names s)), Ok ()).
Proof.
  intros Hhotels Hne Hpriced Hd.
  destruct (hotel_costs_priced _ _ Hpriced) as (costs & Hcosts & Hnum).
  destruct Hnum as [|c0 n0 costs prices Hc0 Hnum].
  { apply Forall2_nil_inv_r in Hpriced. contradiction. }
  destruct (min_from_numbers c0 n0 costs prices Hc0 Hnum) as (clo & lo & Hmin & Hlo & Hlowest).
  destruct (max_from_numbers c0 n0 costs prices Hc0 Hnum) as (chi & hi & Hmax & Hhi & Hhighest).
  exists lo, hi. split; [exact Hlowest |]. split; [exact Hhighest |].
  unfold formalize_accommodation. rewrite (get_lookup _ _ _ Hhotels).
  replace (Py.truthy (JList hotels)) with true
    by (destruct hotels; [contradiction | reflexivity]).
  unfold when.
  rewrite (run_bind_ok _ _ _ _ _ (add_variable_lower_bound_run "accommodation_cost" 0 s)).
  rewrite (run_pure_ok _ _ _ (c0 :: costs))
    by (rewrite (index_lookup _ _ _ Hhotels); exact Hcosts).
  rewrite (run_pure_ok _ _ _ clo) by exact Hmin.
  rewrite (run_pure_ok _ _ _ chi) by exact Hmax.
  rewrite (run_bind_ok _ _ _ _ (Z3.Real "accommodation_cost"))
    by (apply variable_run, lookup_insert_eq).
  rewrite (run_pure_ok _ _ _ (Z3.Ge accommodation_cost (Z3.Num (Py.num_Q (Py.num_mul lo d)))))
    by (rewrite (mul_numbers _ _ _ _ Hlo Hd), outcome_bind_ok; unfold __ge__;
        rewrite numeral_of_num; reflexivity).
  rewrite (run_bind_ok _ _ _ _ (Z3.Real "accommodation_cost"))
    by (apply variable_run, lookup_insert_eq).
  rewrite (run_pure_ok _ _ _ (Z3.Le accommodation_cost (Z3.Num (Py.num_Q (Py.num_mul hi d)))))
    by (rewrite (mul_numbers _ _ _ _ Hhi Hd), outcome_bind_ok; unfold __le__;
        rewrite numeral_of_num; reflexivity).
  rewrite add_constraint_run. unfold Z3.add.
  cbn [solver variables constraints constraint_names Z3.assertions Z3.tracked].
  rewrite <- app_assoc. reflexivity.
Qed.

(** *** What stays once it is there *)

Lemma keeps_add_variable k v fs cs n ty dom :
  n ≠ k → preserves (keeps k v fs cs) (add_variable n ty dom).
Proof.
  intros Hn s (Hv & Hf & Hc). unfold keeps.
  rewrite (add_variable_other n ty dom s k) by done.
  destruct (add_variable_effect n ty dom s) as (b & vars & -> & _). simpl.
  split; [exact Hv |]. split; [| exact Hc].
  intros f Hin. apply elem_of_app. left. by apply Hf.
Qed.

Lemma keeps_add_constraint k v fs cs f n :
  preserves (keeps k v fs cs) (add_constraint f n true).
Proof.
  intros s (Hv & Hf & Hc). rewrite add_constraint_run. unfold keeps, Z3.add. simpl.
  split; [exact Hv |]. split.
  - intros g Hin. apply elem_of_app. left. by apply Hf.
  - intros c Hin. apply elem_of_app. left. by apply Hc.
Qed.

(** Closes [n ≠ k] for the names that formalization declares. *)
Ltac other_name := let E := fresh in intros E; simpl in E; discriminate E.

Ltac keeping :=
  preserving ltac:(first [ apply keeps_add_variable; other_name
                         | apply keeps_add_constraint ]).

Lemma dates_run data s :
  ∃ s', formalize_dates data s = (s', Ok ())
        ∧ ∀ k, k ≠ "start_day" → k ≠ "end_day" → variables s' !! k = variables s !! k.
Proof.
  unfold formalize_dates.
  destruct (Py.truthy (Py.get data "start_date") && Py.truthy (Py.get data "end_date"));
    [| by exists s].
  unfold when.
  assert (Hd : domain_truthy (Some ({[ "min" := 0%Q; "max" := 365%Q ]} : gmap string Q)) = true).
  { unfold domain_truthy. rewrite map_size_insert_None, map_size_singleton; done. }
  rewrite (run_bind_ok _ _ _ _ _
             (add_variable_bounded_run "start_day" "int" _ s (or_introl eq_refl) Hd)).
  rewrite (run_bind_ok _ _ _ _ _
             (add_variable_bounded_run "end_day" "int" _ _ (or_introl eq_refl) Hd)).
  cbn [solver variables constraints constraint_names Z3.assertions Z3.tracked String.eqb
       Ascii.eqb Bool.eqb].
  rewrite (run_bind_ok _ _ _ _ (Z3.Int "end_day"))
    by (apply variable_run; cbn [variables]; apply lookup_insert_eq).
  rewrite (run_bind_ok _ _ _ _ (Z3.Int "start_day"))
    by (apply variable_run; cbn [variables];
        rewrite lookup_insert_ne by done; apply lookup_insert_eq).
  rewrite add_constraint_run. eexists. split; [reflexivity |].
  intros k H1 H2. cbn [variables]. by rewrite !lookup_insert_ne.
Qed.

Lemma post_bind {A B} (Q : TravelPlanSolver → Prop) (m : M A) (f : A → M B) s :
  Q (m s).1 → (∀ a, preserves Q (f a)) → Q ((m ≫= f) s).1.
Proof.
  intros Hm Hf. rewrite run_bind. destruct (m s) as [s1 [a|e]]; simpl in *.
  - by apply Hf.
  - exact Hm.
Qed.

Lemma truthy_get_lookup (data : gmap string json) k :
  Py.truthy (Py.get data k) = true → ∃ v, data !! k = Some v ∧ Py.truthy v = true.
Proof.
  unfold Py.get. destruct (data !! k) as [v|]; [eauto | discriminate].
Qed.

Lemma holds_accommodation_cost_range m lo hi d :
  Z3.holds m (accommodation_cost_range lo hi d) = true ↔
  (Py.num_Q lo * Py.num_Q d <= Z3.eval m accommodation_cost
   ∧ Z3.eval m accommodation_cost <= Py.num_Q hi * Py.num_Q d)%Q.
Proof.
  unfold accommodation_cost_range. cbn [Z3.holds Z3.eval].
  rewrite andb_true_iff, !Qle_bool_iff, !num_mul_value. reflexivity.
Qed.

(** C5, as the code has it. Let the budget pass the test
    [if data.get('budget')], the hotels be a non-empty list whose prices
    (100 for a hotel without one) are integers, and the duration be an
    integer (3 when the key is absent), all of them integers that Python
    prints and multiplies exactly. Then formalization declares
    [accommodation_cost] as a Real with the assertion
    [accommodation_cost >= 0] and records the hard constraint
    [accommodation_cost_range], which says
    [lo * d <= accommodation_cost <= hi * d] for the least price [lo], the
    greatest price [hi] and the duration [d]; all of it is in the final
    state whatever the later blocks do. For an empty list of costs the two
    bounds default to 50 and 300. *)
Theorem C5_accommodation_cost_range rt data hotels (prices : list Z) (d : Z) :
  Py.truthy (Py.get data "budget") = true →
  data !! "hotels" = Some (JList hotels) →
  hotels ≠ [] →
  Forall2 priced hotels (Py.NInt <$> prices) →
  Forall exact_int prices →
  Py.as_num (Py.get_or data "duration" (JInt 3)) = Some (Py.NInt d) →
  exact_int d →
  ∃ lo hi : Z,
    (lo ∈ prices ∧ ∀ p, p ∈ prices → (lo ≤ p)%Z)
    ∧ (hi ∈ prices ∧ ∀ p, p ∈ prices → (p ≤ hi)%Z)
    ∧ variables (_formalize_problem rt data __init__).1 !! "accommodation_cost"
      = Some (Z3.Real "accommodation_cost")
    ∧ Z3.Ge accommodation_cost (Z3.Num 0)
      ∈ Z3.assertions (solver (_formalize_problem rt data __init__).1)
    ∧ Constraint "accommodation_cost_range"
        (accommodation_cost_range (Py.NInt lo) (Py.NInt hi) (Py.NInt d)) true
      ∈ constraints (_formalize_problem rt data __init__).1
    ∧ accommodation_cost_range (Py.NInt lo) (Py.NInt hi) (Py.NInt d)
      ∈ Z3.assertions (solver (_formalize_problem rt data __init__).1)
    ∧ (∀ m, Z3.holds m (accommodation_cost_range (Py.NInt lo) (Py.NInt hi) (Py.NInt d))
            = true ↔
            (inject_Z (lo * d) <= Z3.eval m accommodation_cost
             ∧ Z3.eval m accommodation_cost <= inject_Z (hi * d))%Q)
    ∧ (data !! "duration" = None → d = 3%Z)
    ∧ min_hotel_cost_of [] = Ok (JInt 50)
    ∧ max_hotel_cost_of [] = Ok (JInt 300).
Proof.
  intros Hbudget Hhotels Hne Hpriced _ Hd _.
  destruct (truthy_get_lookup _ _ Hbudget) as (b & Hb & _).
  destruct (dates_run data __init__) as (s1 & Hdates & _).
  pose proof (add_variable_lower_bound_run "total_cost" 0 s1) as Htotal.
  match type of Htotal with
  | _ = (?s2, _) =>
      destruct (accommodation_run rt data hotels _ _ s2 Hhotels Hne Hpriced Hd)
        as (lo' & hi' & Hlo & Hhi & Hacc)
  end.
  apply lowest_of_ints in Hlo as (lo & -> & Hlo).
  apply highest_of_ints in Hhi as (hi & -> & Hhi).
  exists lo, hi. split; [exact Hlo |]. split; [exact Hhi |].
  set (range := accommodation_cost_range (Py.NInt lo) (Py.NInt hi) (Py.NInt d)) in *.
  set (Q := keeps "accommodation_cost" (Z3.Real "accommodation_cost")
              [Z3.Ge accommodation_cost (Z3.Num 0); range]
              [Constraint "accommodation_cost_range" range true]).
  assert (HQ : Q (_formalize_problem rt data __init__).1).
  { unfold _formalize_problem. rewrite (run_bind_ok _ _ _ _ _ Hdates).
    apply post_bind.
    - unfold formalize_budget. rewrite Hbudget. unfold when.
      rewrite (run_pure_ok _ _ _ b) by (by apply index_lookup).
      rewrite (run_bind_ok _ _ _ _ _ Htotal).
      rewrite (run_bind_ok _ _ _ _ _ Hacc).
      assert (Hrest : preserves Q (formalize_activity_cost rt data;; formalize_total rt b)).
      { unfold_blocks. subst Q. keeping. }
      apply Hrest. subst Q. unfold keeps.
      cbn [solver variables constraints constraint_names Z3.assertions Z3.tracked].
      split; [apply lookup_insert_eq |]. split.
      + intros f Hf. apply elem_of_app. by right.
      + intros c Hc. apply elem_of_app. by right.
    - intros _. unfold_blocks. subst Q. keeping. }
  destruct HQ as (Hv & Hf & Hc).
  split; [exact Hv |].
  split; [apply Hf, list_elem_of_here |].
  split; [apply Hc, list_elem_of_here |].
  split; [apply Hf, list_elem_of_further, list_elem_of_here |].
  split.
  { intros m. subst range. unfold accommodation_cost_range.
    cbn [Z3.holds Z3.eval Py.num_mul Py.num_Q].
    rewrite andb_true_iff, !Qle_bool_iff. reflexivity. }
  split; [| split; reflexivity].
  intros Hnone. unfold Py.get_or in Hd. rewrite Hnone in Hd. by injection Hd as <-.
Qed.

Lemma zurich_hotels_priced : Forall2 priced [hotel 300] [Py.NInt 300].
Proof.
  constructor; [| constructor].
  exists {[ "price_per_night" := JInt 300 ]}. split; [reflexivity |].
  unfold Py.get_or. by rewrite lookup_singleton_eq.
Qed.

Lemma hotel_priced p : priced (hotel p) (Py.NInt p).
Proof.
  exists {[ "price_per_night" := JInt p ]}. split; [reflexivity |].
  unfold Py.get_or. by rewrite lookup_singleton_eq.
Qed.

Lemma vienna_hotels_priced :
  Forall2 priced [hotel 120; hotel 180; hotel 250] (Py.NInt <$> [120; 180; 250]%Z).
Proof. repeat constructor; apply hotel_priced. Qed.

Lemma vienna_prices_exact : Forall exact_int [120; 180; 250]%Z.
Proof. repeat constructor. Qed.

Lemma C5_accommodation_cost_range_witness :
  Py.truthy (Py.get vienna "budget") = true
  ∧ vienna !! "hotels" = Some (JList [hotel 120; hotel 180; hotel 250])
  ∧ [hotel 120; hotel 180; hotel 250] ≠ []
  ∧ Forall2 priced [hotel 120; hotel 180; hotel 250] (Py.NInt <$> [120; 180; 250]%Z)
  ∧ Forall exact_int [120; 180; 250]%Z
  ∧ Py.as_num (Py.get_or vienna "duration" (JInt 3)) = Some (Py.NInt 4)
  ∧ exact_int 4
  ∧ Constraint "accommodation_cost_range"
      (accommodation_cost_range (Py.NInt 120) (Py.NInt 250) (Py.NInt 4)) true
    ∈ constraints (_formalize_problem (scenario_runtime vienna_model) vienna __init__).1.
Proof.
  assert (H1 : Py.truthy (Py.get vienna "budget") = true) by (vm_compute; reflexivity).
  assert (H2 : vienna !! "hotels" = Some (JList [hotel 120; hotel 180; hotel 250]))
    by (vm_compute; reflexivity).
  assert (H3 : [hotel 120; hotel 180; hotel 250] ≠ []) by discriminate.
  assert (H5 : Py.as_num (Py.get_or vienna "duration" (JInt 3)) = Some (Py.NInt 4))
    by (vm_compute; reflexivity).
  assert (H6 : exact_int 4) by reflexivity.
  split; [exact H1 |]. split; [exact H2 |]. split; [exact H3 |].
  split; [exact vienna_hotels_priced |]. split; [exact vienna_prices_exact |].
  split; [exact H5 |]. split; [exact H6 |].
  destruct (C5_accommodation_cost_range (scenario_runtime vienna_model) vienna
              [hotel 120; hotel 180; hotel 250] [120; 180; 250]%Z 4
              H1 H2 H3 vienna_hotels_priced vienna_prices_exact H5 H6)
    as (lo & hi & [Hlo Hlo_le] & [Hhi Hhi_le] & _ & _ & Hrec & _).
  assert (lo = 120%Z) as ->.
  { pose proof (Hlo_le 120%Z ltac:(apply list_elem_of_here)).
    repeat (apply elem_of_cons in Hlo as [-> | Hlo]; [lia |]). inversion Hlo. }
  assert (hi = 250%Z) as ->.
  { pose proof (Hhi_le 250%Z ltac:(do 2 apply list_elem_of_further; apply list_elem_of_here)).
    repeat (apply elem_of_cons in Hhi as [-> | Hhi]; [lia |]). inversion Hhi. }
  exact Hrec.
Defined.

(** C5, as the claim has it, fails for a budget that is present but falsy:
    with a budget of 0 and a hotel, the budget block is skipped, so
    [accommodation_cost] is not declared and [accommodation_cost_range] is
    not recorded; the hotel block alone leaves its record. *)
Lemma C5_counterexample :
  zurich_for_free !! "budget" = Some (JInt 0)
  ∧ zurich_for_free !! "hotels" = Some (JList [hotel 300])
  ∧ (_formalize_problem (scenario_runtime zurich_for_free_model)
       zurich_for_free __init__).2 = Ok ()
  ∧ variables (_formalize_problem (scenario_runtime zurich_for_free_model)
                 zurich_for_free __init__).1 !! "accommodation_cost" = None
  ∧ recorded_names (_formalize_problem (scenario_runtime zurich_for_free_model)
                      zurich_for_free __init__).1 = ["hotel_availability"]
  ∧ "accommodation_cost_range"
    ∉ recorded_names (_formalize_problem (scenario_runtime zurich_for_free_model)
                        zurich_for_free __init__).1.
Proof.
  assert (Hnames :
    recorded_names (_formalize_problem (scenario_runtime zurich_for_free_model)
                      zurich_for_free __init__).1 = ["hotel_availability"])
    by (vm_compute; reflexivity).
  split; [vm_compute; reflexivity |].
  split; [vm_compute; reflexivity |].
  split; [vm_compute; reflexivity |].
  split; [vm_compute; reflexivity |].
  split; [exact Hnames |].
  rewrite Hnames. intros H. apply list_elem_of_singleton in H. discriminate H.
Qed.

(** *** A budget below the cheapest stay *)

Lemma cost_component_run n s :
  cost_component n s = (s, Ok (from_option (λ v, [Z3.Var v]) [] (variables s !! n))).
Proof.
  unfold cost_component, declared. rewrite run_bind. cbn [fst snd].
  destruct (variables s !! n) as [v|] eqn:E.
  - rewrite bool_decide_eq_true_2 by eauto.
    rewrite (run_bind_ok _ _ _ _ v) by (by apply variable_run). reflexivity.
  - rewrite bool_decide_eq_false_2 by (by intros [? ?]). reflexivity.
Qed.

Lemma total_run rt b s v :
  variables s !! "accommodation_cost" = Some v →
  formalize_total rt (Py.of_num b) s =
    (Self (Z3.Solver
             (Z3.assertions (solver s)
                ++ [Z3.Eq calculated_total (sum_terms (cost_components_in s));
                    Z3.Le calculated_total (Z3.Num (Py.num_Q b))])
             (Z3.tracked (solver s)))
          (<["calculated_total" := Z3.Real "calculated_total"]> (variables s))
          (constraints s
             ++ [Constraint "total_cost_calculation"
                   (Z3.Eq calculated_total (sum_terms (cost_components_in s))) true;
                 Constraint "budget_limit"
                   (Z3.Le calculated_total (Z3.Num (Py.num_Q b))) true])
          (<["budget_limit" := Z3.Le calculated_total (Z3.Num (Py.num_Q b))]>
             (<["total_cost_calculation" :=
                  Z3.Eq calculated_total (sum_terms (cost_components_in s))]>
                (constraint_names s))), Ok ()).
Proof.
  intros Hv. unfold formalize_total.
  rewrite (run_bind_ok _ _ _ _ _ (cost_component_run "accommodation_cost" s)).
  rewrite (run_bind_ok _ _ _ _ _ (cost_component_run "activity_cost" s)).
  cbv zeta. fold (cost_components_in s).
  replace (Py.nonempty (cost_components_in s)) with true
    by (unfold cost_components_in; rewrite Hv; reflexivity).
  unfold when.
  rewrite (run_bind_ok _ _ _ _ _ (add_variable_unbounded_real_run "calculated_total" s)).
  rewrite (run_bind_ok _ _ _ _ (Z3.Real "calculated_total"))
    by (apply variable_run, lookup_insert_eq).
  rewrite (run_bind_ok _ _ _ _ _ (add_constraint_run _ _ _ _)).
  rewrite (run_bind_ok _ _ _ _ (Z3.Real "calculated_total"))
    by (apply variable_run, lookup_insert_eq).
  rewrite (run_pure_ok _ _ _ (Z3.Le calculated_total (Z3.Num (Py.num_Q b))))
    by (unfold __le__; rewrite numeral_of_num; reflexivity).
  rewrite add_constraint_run. unfold Z3.add.
  cbn [solver variables constraints constraint_names Z3.assertions Z3.tracked].
  rewrite <- !app_assoc. reflexivity.
Qed.

Lemma holds_of_all m fs f :
  forallb (Z3.holds m) fs = true → f ∈ fs → Z3.holds m f = true.
Proof.
  intros Hall Hin. rewrite forallb_forall in Hall. apply Hall. by apply list_elem_of_In.
Qed.

Lemma budget_refutes fs lo hi d b opt :
  accommodation_cost_range lo hi d ∈ fs →
  Z3.Eq calculated_total (sum_terms (accommodation_cost :: opt)) ∈ fs →
  Z3.Le calculated_total (Z3.Num (Py.num_Q b)) ∈ fs →
  (opt = [] ∨ ∃ v, opt = [Z3.Var v] ∧ Z3.Ge (Z3.Var v) (Z3.Num 0) ∈ fs) →
  (Py.num_Q b < Py.num_Q lo * Py.num_Q d)%Q →
  ∀ m, forallb (Z3.holds m) fs = false.
Proof.
  intros Hrange Heq Hle Hopt Hlt m.
  destruct (forallb (Z3.holds m) fs) eqn:Hall; [exfalso | reflexivity].
  pose proof (holds_of_all _ _ _ Hall Hrange) as H1.
  pose proof (holds_of_all _ _ _ Hall Heq) as H2.
  pose proof (holds_of_all _ _ _ Hall Hle) as H3.
  apply holds_accommodation_cost_range in H1 as [H1 _].
  cbn [Z3.holds Z3.eval] in H2, H3.
  apply Qeq_bool_iff in H2. apply Qle_bool_iff in H3.
  set (P := (Py.num_Q lo * Py.num_Q d)%Q) in *.
  destruct Hopt as [-> | (v & -> & Hv)].
  - cbn [sum_terms fold_left Z3.eval] in H2. unfold accommodation_cost in *.
    cbn [Z3.eval] in *. lra.
  - pose proof (holds_of_all _ _ _ Hall Hv) as H4.
    cbn [Z3.holds Z3.eval] in H4. apply Qle_bool_iff in H4.
    cbn [sum_terms fold_left Z3.eval] in H2. unfold accommodation_cost in *.
    cbn [Z3.eval] in *. lra.
Qed.

Lemma refuted_grows s s' extra :
  Z3.assertions (solver s') = Z3.assertions (solver s) ++ extra → refuted s → refuted s'.
Proof.
  intros E H m. rewrite E, forallb_app, (H m). reflexivity.
Qed.

Lemma refuted_add_variable n ty dom : preserves refuted (add_variable n ty dom).
Proof.
  intros s H. destruct (add_variable_effect n ty dom s) as (b & vars & -> & _).
  by apply (refuted_grows s _ b).
Qed.

Lemma refuted_add_constraint f n : preserves refuted (add_constraint f n true).
Proof.
  intros s H. rewrite add_constraint_run. by apply (refuted_grows s _ [f]).
Qed.

Lemma activity_bounded_add_variable n ty dom :
  n ≠ "activity_cost" → preserves activity_bounded (add_variable n ty dom).
Proof.
  intros Hn s H v. rewrite (add_variable_other n ty dom s) by done.
  destruct (add_variable_effect n ty dom s) as (b & vars & -> & _). simpl.
  intros Hv. apply elem_of_app. left. by apply H.
Qed.

Lemma activity_bounded_declare :
  preserves activity_bounded
    (add_variable "activity_cost" "real" (Some {[ "min" := 0%Q ]})).
Proof.
  intros s _ v. rewrite add_variable_lower_bound_run. simpl.
  rewrite lookup_insert_eq. intros [= <-].
  apply elem_of_app. right. apply list_elem_of_here.
Qed.

Lemma activity_bounded_add_constraint f n :
  preserves activity_bounded (add_constraint f n true).
Proof.
  intros s H v. rewrite add_constraint_run. unfold Z3.add. simpl.
  intros Hv. apply elem_of_app. left. by apply H.
Qed.

Ltac bounding :=
  preserving ltac:(first [ apply activity_bounded_declare
                         | apply activity_bounded_add_variable; other_name
                         | apply activity_bounded_add_constraint ]).

Ltac refuting :=
  preserving ltac:(first [apply refuted_add_variable | apply refuted_add_constraint]).

Lemma lowest_same_value l lo lo' :
  lowest l lo → lowest l lo' → (Py.num_Q lo == Py.num_Q lo')%Q.
Proof.
  intros [Hin Hle] [Hin' Hle']. apply Qle_antisym; [by apply Hle | by apply Hle'].
Qed.

Lemma budget_block_refuted rt data b hotels prices d lo s s' :
  data !! "budget" = Some (Py.of_num b) →
  Py.truthy (Py.of_num b) = true →
  data !! "hotels" = Some (JList hotels) →
  hotels ≠ [] →
  Forall2 priced hotels prices →
  Py.as_num (Py.get_or data "duration" (JInt 3)) = Some d →
  lowest prices lo →
  (Py.num_Q b < Py.num_Q lo * Py.num_Q d)%Q →
  activity_bounded s →
  formalize_budget rt data s = (s', Ok ()) →
  refuted s'.
Proof.
  intros Hb Htruthy Hhotels Hne Hpriced Hd Hlo Hlt Hs.
  unfold formalize_budget. rewrite (get_lookup _ _ _ Hb), Htruthy. unfold when.
  rewrite (run_pure_ok _ _ _ (Py.of_num b)) by (by apply index_lookup).
  pose proof (add_variable_lower_bound_run "total_cost" 0 s) as Htotal.
  rewrite (run_bind_ok _ _ _ _ _ Htotal).
  match type of Htotal with
  | _ = (?s2, _) =>
      destruct (accommodation_run rt data hotels prices d s2 Hhotels Hne Hpriced Hd)
        as (lo' & hi & Hlo' & _ & Hacc)
  end.
  rewrite (run_bind_ok _ _ _ _ _ Hacc).
  match type of Hacc with _ = (?st, _) => set (s3 := st) in * end.
  intros Hrun. apply bind_ok_inv in Hrun as (s4 & [] & Hactivity & Hrun).
  assert (Hkeep : keeps "accommodation_cost" (Z3.Real "accommodation_cost")
                    [accommodation_cost_range lo' hi d] [] s4).
  { assert (Hp : preserves (keeps "accommodation_cost" (Z3.Real "accommodation_cost")
                              [accommodation_cost_range lo' hi d] [])
                   (formalize_activity_cost rt data)) by (unfold_blocks; keeping).
    specialize (Hp s3). rewrite Hactivity in Hp. apply Hp.
    subst s3. unfold keeps.
    cbn [solver variables constraints constraint_names Z3.assertions Z3.tracked].
    split; [apply lookup_insert_eq |]. split; [| intros c Hc; inversion Hc].
    intros f Hf. apply list_elem_of_singleton in Hf as ->.
    apply elem_of_app. right. apply list_elem_of_further, list_elem_of_here. }
  assert (Hbound : activity_bounded s4).
  { assert (Hp : preserves activity_bounded (formalize_activity_cost rt data))
      by (unfold_blocks; bounding).
    specialize (Hp s3). rewrite Hactivity in Hp. apply Hp.
    subst s3. intros v.
    cbn [solver variables constraints constraint_names Z3.assertions Z3.tracked].
    rewrite !lookup_insert_ne by done. intros Hv.
    apply elem_of_app. left. apply elem_of_app. left. by apply Hs. }
  destruct Hkeep as (Hv & Hf & _).
  rewrite (total_run rt b s4 _ Hv) in Hrun. injection Hrun as <-.
  intros m. cbn [solver Z3.assertions].
  apply (budget_refutes _ lo' hi d b
           (from_option (λ v, [Z3.Var v]) [] (variables s4 !! "activity_cost"))).
  - apply elem_of_app. left. apply Hf, list_elem_of_here.
  - apply elem_of_app. right. unfold cost_components_in. rewrite Hv.
    apply list_elem_of_here.
  - apply elem_of_app. right. apply list_elem_of_further, list_elem_of_here.
  - destruct (variables s4 !! "activity_cost") as [v|] eqn:Hact; [right | by left].
    exists v. split; [reflexivity |]. apply elem_of_app. left. by apply Hbound.
  - by rewrite <- (lowest_same_value _ _ _ Hlo Hlo').
Qed.

Lemma activity_bounded_init : activity_bounded __init__.
Proof.
  intros v H. change (variables __init__) with (∅ : gmap string Z3.const) in H.
  by rewrite lookup_empty in H.
Qed.

Lemma formalize_refuted rt data b hotels prices d lo st :
  data !! "budget" = Some (Py.of_num b) →
  Py.truthy (Py.of_num b) = true →
  data !! "hotels" = Some (JList hotels) →
  hotels ≠ [] →
  Forall2 priced hotels prices →
  Py.as_num (Py.get_or data "duration" (JInt 3)) = Some d →
  lowest prices lo →
  (Py.num_Q b < Py.num_Q lo * Py.num_Q d)%Q →
  _formalize_problem rt data __init__ = (st, Ok ()) →
  refuted st.
Proof.
  intros Hb Htruthy Hhotels Hne Hpriced Hd Hlo Hlt.
  unfold _formalize_problem.
  destruct (dates_run data __init__) as (s1 & Hdates & _).
  rewrite (run_bind_ok _ _ _ _ _ Hdates). intros Hrun.
  apply bind_ok_inv in Hrun as (s2 & [] & Hbudget & Hrest).
  assert (H1 : activity_bounded s1).
  { assert (Hp : preserves activity_bounded (formalize_dates data))
      by (unfold_blocks; bounding).
    specialize (Hp __init__ activity_bounded_init). by rewrite Hdates in Hp. }
  pose proof (budget_block_refuted rt data b hotels prices d lo s1 s2
                Hb Htruthy Hhotels Hne Hpriced Hd Hlo Hlt H1 Hbudget) as H2.
  assert (Hp : preserves refuted
                 (formalize_preferences rt data;; formalize_hotel data;;
                  formalize_scheduling rt data))
    by (unfold_blocks; refuting).
  specialize (Hp s2 H2). by rewrite Hrest in Hp.
Qed.

Lemma refuted_unsatisfiable s m : refuted s → Z3.satisfies m (solver s) = false.
Proof. intros H. unfold Z3.satisfies. by rewrite (H m). Qed.

(** C1, as the code has it. Let the budget be a non-zero integer, the
    hotels a non-empty list whose prices (100 for a hotel without one) are
    integers, the duration an integer (3 when absent), all of them integers
    that Python prints, multiplies and halves exactly, and the budget below
    the least price times the duration. Then no model satisfies the
    assertions of a formalization that returns normally; with a solver whose
    [sat] answers come with a model the result is never satisfiable; and
    when formalization returns normally and the solver decides, the result
    is unsatisfiable, with the empty list for [unsat_core], since every
    constraint is asserted hard. *)
Theorem C1_budget_below_cheapest_stay rt data (b : Z) hotels (prices : list Z) (d lo : Z) :
  data !! "budget" = Some (JInt b) →
  b ≠ 0%Z →
  exact_int b →
  data !! "hotels" = Some (JList hotels) →
  hotels ≠ [] →
  Forall2 priced hotels (Py.NInt <$> prices) →
  Forall exact_int prices →
  Py.as_num (Py.get_or data "duration" (JInt 3)) = Some (Py.NInt d) →
  exact_int d →
  lo ∈ prices →
  (∀ p, p ∈ prices → (lo ≤ p)%Z) →
  (b < lo * d)%Z →
  sat_sound rt (solver (_formalize_problem rt data __init__).1) →
  core_of_tracked rt (solver (_formalize_problem rt data __init__).1) →
  ((_formalize_problem rt data __init__).2 = Ok () →
     ∀ m, Z3.satisfies m (solver (_formalize_problem rt data __init__).1) = false)
  ∧ status (session rt data) ≠ "satisfiable"
  ∧ ((_formalize_problem rt data __init__).2 = Ok () →
     decides rt (solver (_formalize_problem rt data __init__).1) →
     session rt data =
       Unsatisfiable [] (elapsed_ms rt)
         (length (constraints (_formalize_problem rt data __init__).1))).
Proof.
  intros Hb Hnz _ Hhotels Hne Hpriced _ Hd _ Hlo Hle Hlt Hsound Hcore.
  assert (Hunsat : (_formalize_problem rt data __init__).2 = Ok () →
    ∀ m, Z3.satisfies m (solver (_formalize_problem rt data __init__).1) = false).
  { intros Hok m. apply refuted_unsatisfiable.
    apply (formalize_refuted rt data (Py.NInt b) hotels (Py.NInt <$> prices)
             (Py.NInt d) (Py.NInt lo) _ Hb).
    - cbn [Py.of_num Py.truthy]. apply negb_true_iff. by apply Z.eqb_neq.
    - exact Hhotels.
    - exact Hne.
    - exact Hpriced.
    - exact Hd.
    - by apply lowest_int.
    - cbn [Py.num_Q]. rewrite <- inject_Z_mult, <- Zlt_Qlt. exact Hlt.
    - destruct (_formalize_problem rt data __init__) as [st o].
      simpl in *. by rewrite Hok. }
  assert (Hnot : (_formalize_problem rt data __init__).2 = Ok () →
    z3_check rt (solver (_formalize_problem rt data __init__).1) ≠ Ok Z3.sat).
  { intros Hok Hsat. specialize (Hsound Hsat). rewrite (Hunsat Hok) in Hsound.
    discriminate Hsound. }
  split; [exact Hunsat |]. split.
  - rewrite session_cases.
    destruct (_formalize_problem rt data __init__).2 as [[]|e] eqn:Hrun; [| discriminate].
    specialize (Hnot eq_refl).
    destruct (z3_check rt (solver (_formalize_problem rt data __init__).1))
      as [[]|e]; try discriminate.
    contradiction.
  - intros Hok Hdec. rewrite session_cases, Hok.
    destruct Hdec as [Hsat | ->]; [by apply Hnot in Hsat |].
    by rewrite (unsat_core_empty rt data Hcore).
Qed.

Lemma scenario_sat_sound candidate s : sat_sound (scenario_runtime candidate) s.
Proof.
  unfold sat_sound. cbn [z3_check z3_model scenario_runtime]. unfold certifying_check.
  destruct (Z3.satisfies candidate s); [reflexivity | discriminate].
Qed.

Lemma scenario_session_zurich :
  session (scenario_runtime ∅) zurich = Unsatisfiable [] 12 4.
Proof. run_session. f_equal. Qed.

Lemma scenario_session_zurich_for_free :
  session (scenario_runtime zurich_for_free_model) zurich_for_free =
    Satisfiable
      (_extract_solution zurich_for_free_model
         (_formalize_problem (scenario_runtime zurich_for_free_model)
            zurich_for_free __init__).1)
      12 1.
Proof. run_session. f_equal. Qed.

Lemma zurich_lowest : lowest [Py.NInt 300] (Py.NInt 300).
Proof.
  split; [apply list_elem_of_here |].
  intros p Hp. apply list_elem_of_singleton in Hp as ->. apply Qle_refl.
Qed.

Lemma zurich_refuted :
  ∀ m, Z3.satisfies m
         (solver (_formalize_problem (scenario_runtime ∅) zurich __init__).1) = false.
Proof.
  intros m. apply refuted_unsatisfiable.
  apply (formalize_refuted (scenario_runtime ∅) zurich (Py.NInt 200) [hotel 300]
           [Py.NInt 300] (Py.NInt 5) (Py.NInt 300)).
  - vm_compute; reflexivity.
  - reflexivity.
  - vm_compute; reflexivity.
  - discriminate.
  - exact zurich_hotels_priced.
  - vm_compute; reflexivity.
  - exact zurich_lowest.
  - reflexivity.
  - assert (H : (_formalize_problem (scenario_runtime ∅) zurich __init__).2 = Ok ())
      by (vm_compute; reflexivity).
    destruct (_formalize_problem (scenario_runtime ∅) zurich __init__) as [st o].
    simpl in *. by rewrite H.
Qed.

Lemma C1_budget_below_cheapest_stay_witness :
  zurich !! "budget" = Some (JInt 200)
  ∧ 200%Z ≠ 0%Z
  ∧ exact_int 200
  ∧ zurich !! "hotels" = Some (JList [hotel 300])
  ∧ [hotel 300] ≠ []
  ∧ Forall2 priced [hotel 300] (Py.NInt <$> [300%Z])
  ∧ Forall exact_int [300%Z]
  ∧ Py.as_num (Py.get_or zurich "duration" (JInt 3)) = Some (Py.NInt 5)
  ∧ exact_int 5
  ∧ 300%Z ∈ [300%Z]
  ∧ (∀ p, p ∈ [300%Z] → (300 ≤ p)%Z)
  ∧ (200 < 300 * 5)%Z
  ∧ sat_sound (scenario_runtime ∅)
      (solver (_formalize_problem (scenario_runtime ∅) zurich __init__).1)
  ∧ core_of_tracked (scenario_runtime ∅)
      (solver (_formalize_problem (scenario_runtime ∅) zurich __init__).1)
  ∧ session (scenario_runtime ∅) zurich =
      Unsatisfiable [] (elapsed_ms (scenario_runtime ∅))
        (length (constraints (_formalize_problem (scenario_runtime ∅) zurich __init__).1)).
Proof.
  assert (H1 : zurich !! "budget" = Some (JInt 200)) by (vm_compute; reflexivity).
  assert (H2 : 200%Z ≠ 0%Z) by discriminate.
  assert (H2' : exact_int 200) by reflexivity.
  assert (H3 : zurich !! "hotels" = Some (JList [hotel 300])) by (vm_compute; reflexivity).
  assert (H4 : [hotel 300] ≠ []) by discriminate.
  assert (H5 : Forall exact_int [300%Z]) by (repeat constructor).
  assert (H6 : Py.as_num (Py.get_or zurich "duration" (JInt 3)) = Some (Py.NInt 5))
    by (vm_compute; reflexivity).
  assert (H6' : exact_int 5) by reflexivity.
  assert (H7 : 300%Z ∈ [300%Z]) by apply list_elem_of_here.
  assert (H7' : ∀ p, p ∈ [300%Z] → (300 ≤ p)%Z)
    by (intros p Hp; apply list_elem_of_singleton in Hp as ->; lia).
  assert (H8 : (200 < 300 * 5)%Z) by reflexivity.
  pose proof (scenario_sat_sound ∅
    (solver (_formalize_problem (scenario_runtime ∅) zurich __init__).1)) as H9.
  pose proof (scenario_core_of_tracked ∅
    (solver (_formalize_problem (scenario_runtime ∅) zurich __init__).1)) as H10.
  split; [exact H1 |]. split; [exact H2 |]. split; [exact H2' |]. split; [exact H3 |].
  split; [exact H4 |]. split; [exact zurich_hotels_priced |]. split; [exact H5 |].
  split; [exact H6 |]. split; [exact H6' |]. split; [exact H7 |]. split; [exact H7' |].
  split; [exact H8 |]. split; [exact H9 |]. split; [exact H10 |].
  destruct (C1_budget_below_cheapest_stay (scenario_runtime ∅) zurich
              200 [hotel 300] [300%Z] 5 300
              H1 H2 H2' H3 H4 zurich_hotels_priced H5 H6 H6' H7 H7' H8 H9 H10)
    as (_ & _ & Hresult).
  apply Hresult.
  - vm_compute; reflexivity.
  - right. vm_compute; reflexivity.
Defined.

(** C1, as the claim has it, fails twice. On its own scenario the result
    is unsatisfiable, rightly so, but [unsat_core] is the empty list and
    names neither [budget_limit] nor any other constraint, although
    [budget_limit] was recorded. And a budget of zero is below the cheapest
    stay without making the result unsatisfiable. *)
Lemma C1_counterexample :
  (∀ m, Z3.satisfies m
          (solver (_formalize_problem (scenario_runtime ∅) zurich __init__).1) = false)
  ∧ "budget_limit"
    ∈ recorded_names (_formalize_problem (scenario_runtime ∅) zurich __init__).1
  ∧ session (scenario_runtime ∅) zurich = Unsatisfiable [] 12 4
  ∧ ¬ (∃ core c, unsat_core_of (session (scenario_runtime ∅) zurich) = Some core
                 ∧ c ∈ core)
  ∧ zurich_for_free !! "budget" = Some (JInt 0)
  ∧ zurich_for_free !! "hotels" = Some (JList [hotel 300])
  ∧ (0 < 300 * 5)%Q
  ∧ Z3.satisfies zurich_for_free_model
      (solver (_formalize_problem (scenario_runtime zurich_for_free_model)
                 zurich_for_free __init__).1) = true
  ∧ status (session (scenario_runtime zurich_for_free_model) zurich_for_free)
    = "satisfiable".
Proof.
  split; [exact zurich_refuted |].
  split.
  { replace (recorded_names (_formalize_problem (scenario_runtime ∅) zurich __init__).1)
      with ["accommodation_cost_range"; "total_cost_calculation"; "budget_limit";
            "hotel_availability"] by (vm_compute; reflexivity).
    set_solver. }
  split; [exact scenario_session_zurich |].
  split.
  { rewrite scenario_session_zurich. intros (core & c & [= <-] & Hc). inversion Hc. }
  split; [vm_compute; reflexivity |].
  split; [vm_compute; reflexivity |].
  split; [reflexivity |].
  split; [vm_compute; reflexivity |].
  rewrite scenario_session_zurich_for_free. reflexivity.
Qed.

(** *** Independent sessions *)

Lemma formalize_same_library rt1 rt2 data :
  py_repr rt1 = py_repr rt2 → z3_numeral rt1 = z3_numeral rt2 →
  _formalize_problem rt1 data = _formalize_problem rt2 data.
Proof. destruct rt1, rt2. simpl. intros -> ->. reflexivity. Qed.

(** C8. Two sessions on the same trip description, each with a fresh
    instance, the same interpreter and z3 library, but their own clock and
    their own run of the solver: formalization ends in the same state and
    outcome, so the variable names and the sequence of constraint names are
    the same; and if each solver decides the problem and is right about it,
    the two results have the same status. *)
Theorem C8_formalization_is_deterministic rt1 rt2 data :
  py_repr rt1 = py_repr rt2 →
  z3_numeral rt1 = z3_numeral rt2 →
  sat_sound rt1 (solver (_formalize_problem rt1 data __init__).1) →
  unsat_sound rt1 (solver (_formalize_problem rt1 data __init__).1) →
  decides rt1 (solver (_formalize_problem rt1 data __init__).1) →
  sat_sound rt2 (solver (_formalize_problem rt2 data __init__).1) →
  unsat_sound rt2 (solver (_formalize_problem rt2 data __init__).1) →
  decides rt2 (solver (_formalize_problem rt2 data __init__).1) →
  _formalize_problem rt1 data __init__ = _formalize_problem rt2 data __init__
  ∧ dom (variables (_formalize_problem rt1 data __init__).1)
    = dom (variables (_formalize_problem rt2 data __init__).1)
  ∧ recorded_names (_formalize_problem rt1 data __init__).1
    = recorded_names (_formalize_problem rt2 data __init__).1
  ∧ status (session rt1 data) = status (session rt2 data).
Proof.
  intros Hrepr Hnum Hsat1 Hunsat1 Hdec1 Hsat2 Hunsat2 Hdec2.
  rewrite !session_cases.
  rewrite <- (formalize_same_library rt1 rt2 data Hrepr Hnum) in *.
  split; [reflexivity |]. split; [reflexivity |]. split; [reflexivity |].
  destruct (_formalize_problem rt1 data __init__).2 as [[]|e]; [| reflexivity].
  destruct Hdec1 as [H1 | H1], Hdec2 as [H2 | H2]; rewrite H1, H2; try reflexivity.
  - specialize (Hsat1 H1). by rewrite (Hunsat2 H2) in Hsat1.
  - specialize (Hsat2 H2). by rewrite (Hunsat1 H1) in Hsat2.
Qed.

Lemma scenario_decides candidate s : decides (scenario_runtime candidate) s.
Proof.
  unfold decides. cbn [z3_check scenario_runtime]. unfold certifying_check.
  destruct (Z3.satisfies candidate s); [by left | by right].
Qed.

Lemma scenario_unsat_sound candidate s :
  Z3.satisfies candidate s = true → unsat_sound (scenario_runtime candidate) s.
Proof.
  unfold unsat_sound. cbn [z3_check scenario_runtime]. unfold certifying_check.
  intros ->. discriminate.
Qed.

Lemma vienna_models :
  Z3.satisfies vienna_model
    (solver (_formalize_problem (scenario_runtime vienna_model) vienna __init__).1) = true
  ∧ Z3.satisfies vienna_busy_model
      (solver (_formalize_problem (at_pace 40 (scenario_runtime vienna_busy_model))
                 vienna __init__).1) = true.
Proof. split; vm_compute; reflexivity. Qed.

Lemma C8_formalization_is_deterministic_witness :
  py_repr (scenario_runtime vienna_model)
    = py_repr (at_pace 40 (scenario_runtime vienna_busy_model))
  ∧ z3_numeral (scenario_runtime vienna_model)
    = z3_numeral (at_pace 40 (scenario_runtime vienna_busy_model))
  ∧ recorded_names (_formalize_problem (scenario_runtime vienna_model) vienna __init__).1
    = recorded_names
        (_formalize_problem (at_pace 40 (scenario_runtime vienna_busy_model))
           vienna __init__).1
  ∧ status (session (scenario_runtime vienna_model) vienna)
    = status (session (at_pace 40 (scenario_runtime vienna_busy_model)) vienna).
Proof.
  split; [reflexivity |]. split; [reflexivity |].
  destruct vienna_models as [Hm1 Hm2].
  destruct (C8_formalization_is_deterministic
              (scenario_runtime vienna_model)
              (at_pace 40 (scenario_runtime vienna_busy_model)) vienna
              eq_refl eq_refl
              (scenario_sat_sound _ _)
              (scenario_unsat_sound _ _ Hm1)
              (scenario_decides _ _)
              (scenario_sat_sound vienna_busy_model _)
              (scenario_unsat_sound vienna_busy_model _ Hm2)
              (scenario_decides vienna_busy_model _))
    as (_ & _ & Hnames & Hstatus).
  split; [exact Hnames | exact Hstatus].
Defined.

(** The instance must be fresh: a second formalization on the instance of
    the first finds its variables and appends every record once more. *)
Lemma reused_instance_records_twice :
  recorded_names
    (_formalize_problem (scenario_runtime ∅) zurich
       (_formalize_problem (scenario_runtime ∅) zurich __init__).1).1
  = recorded_names (_formalize_problem (scenario_runtime ∅) zurich __init__).1
    ++ recorded_names (_formalize_problem (scenario_runtime ∅) zurich __init__).1.
Proof. vm_compute. reflexivity. Qed.

(** *** Falsy fields *)

Lemma alike_truthy d1 d2 k :
  alike d1 d2 → Py.truthy (Py.get d1 k) = Py.truthy (Py.get d2 k).
Proof.
  intros [_ H]. destruct (H k) as [E | [-> ->]]; [| reflexivity].
  unfold Py.get. by rewrite E.
Qed.

Lemma alike_lookup d1 d2 k :
  alike d1 d2 → Py.truthy (Py.get d2 k) = true → d1 !! k = d2 !! k.
Proof.
  intros [_ H] Ht. destruct (H k) as [E | [_ E]]; [exact E | congruence].
Qed.

Lemma alike_duration d1 d2 dflt :
  alike d1 d2 → Py.get_or d1 "duration" dflt = Py.get_or d2 "duration" dflt.
Proof. intros [H _]. unfold Py.get_or. by rewrite H. Qed.

Lemma agree_refl {A} (m : M A) : agree m m.
Proof. intros s. reflexivity. Qed.

Lemma accommodation_alike rt d1 d2 :
  alike d1 d2 → agree (formalize_accommodation rt d1) (formalize_accommodation rt d2).
Proof.
  intros H. unfold formalize_accommodation.
  apply agree_when; [apply (alike_truthy _ _ _ H) |]. intros Ht.
  rewrite (alike_truthy _ _ _ H) in Ht.
  unfold Py.index. rewrite (alike_lookup _ _ _ H Ht), (alike_duration _ _ _ H).
  apply agree_refl.
Qed.

Lemma activity_cost_alike rt d1 d2 :
  alike d1 d2 → agree (formalize_activity_cost rt d1) (formalize_activity_cost rt d2).
Proof.
  intros H. unfold formalize_activity_cost.
  apply agree_when; [apply (alike_truthy _ _ _ H) |]. intros Ht.
  rewrite (alike_truthy _ _ _ H) in Ht.
  unfold Py.index. rewrite (alike_lookup _ _ _ H Ht), (alike_duration _ _ _ H).
  apply agree_refl.
Qed.

Lemma budget_alike rt d1 d2 :
  alike d1 d2 → agree (formalize_budget rt d1) (formalize_budget rt d2).
Proof.
  intros H. unfold formalize_budget.
  apply agree_when; [apply (alike_truthy _ _ _ H) |]. intros Ht.
  rewrite (alike_truthy _ _ _ H) in Ht.
  unfold Py.index. rewrite (alike_lookup _ _ _ H Ht).
  apply agree_bind; [apply agree_refl | intros b].
  apply agree_bind; [apply agree_refl | intros _].
  apply agree_bind; [by apply accommodation_alike | intros _].
  apply agree_bind; [by apply activity_cost_alike | intros _].
  apply agree_refl.
Qed.

Lemma preference_alike rt d1 d2 i pref :
  alike d1 d2 → agree (formalize_preference rt d1 i pref) (formalize_preference rt d2 i pref).
Proof.
  intros H. unfold formalize_preference. cbv zeta.
  apply agree_bind; [apply agree_refl | intros _].
  rewrite !(alike_truthy d1 d2 _ H).
  destruct (Py.eq_str pref "culture" && Py.truthy (Py.get d2 "attractions")) eqn:Hc;
    [| apply agree_refl].
  apply andb_true_iff in Hc as [_ Ht].
  unfold Py.index. rewrite (alike_lookup _ _ _ H Ht). apply agree_refl.
Qed.

Lemma get_or_truthy (d : gmap string json) k :
  Py.truthy (Py.get_or d k (JList [])) = Py.truthy (Py.get d k).
Proof. unfold Py.get_or, Py.get. destruct (d !! k); reflexivity. Qed.

Lemma preferences_alike rt d1 d2 :
  alike d1 d2 → agree (formalize_preferences rt d1) (formalize_preferences rt d2).
Proof.
  intros H. unfold formalize_preferences. cbv zeta.
  apply agree_when; [rewrite !get_or_truthy; apply (alike_truthy _ _ _ H) |]. intros Ht.
  rewrite get_or_truthy, (alike_truthy _ _ _ H) in Ht.
  unfold Py.get_or. rewrite (alike_lookup _ _ _ H Ht).
  apply agree_bind; [apply agree_refl | intros prefs].
  apply agree_for_each. intros [i pref]. by apply preference_alike.
Qed.

Lemma scheduling_alike rt d1 d2 :
  alike d1 d2 → agree (formalize_scheduling rt d1) (formalize_scheduling rt d2).
Proof.
  intros H. unfold formalize_scheduling. cbv zeta.
  apply agree_when; [by rewrite !(alike_truthy d1 d2 _ H) |]. intros Ht.
  rewrite !(alike_truthy d1 d2 _ H) in Ht. apply andb_true_iff in Ht as [Ht _].
  unfold Py.index. rewrite (alike_lookup _ _ _ H Ht), (alike_duration _ _ _ H).
  apply agree_refl.
Qed.

Lemma formalize_alike rt d1 d2 :
  alike d1 d2 → agree (_formalize_problem rt d1) (_formalize_problem rt d2).
Proof.
  intros H. unfold _formalize_problem.
  apply agree_bind.
  { unfold formalize_dates. apply agree_when; [| intros _; apply agree_refl].
    by rewrite !(alike_truthy d1 d2 _ H). }
  intros _. apply agree_bind; [by apply budget_alike | intros _].
  apply agree_bind; [by apply preferences_alike | intros _].
  apply agree_bind.
  { unfold formalize_hotel. apply agree_when; [| intros _; apply agree_refl].
    by rewrite !(alike_truthy d1 d2 _ H). }
  intros _. by apply scheduling_alike.
Qed.

Lemma falsy_alike_absent (data : gmap string json) k v :
  k ≠ "duration" → Py.truthy v = false → alike (<[k := v]> data) (delete k data).
Proof.
  intros Hk Hv. split.
  - by rewrite lookup_insert_ne, lookup_delete_ne.
  - intros k'. destruct (decide (k = k')) as [<- | Hne].
    + right. unfold Py.get. by rewrite lookup_insert_eq, lookup_delete_eq.
    + left. by rewrite lookup_insert_ne, lookup_delete_ne.
Qed.

Lemma lacks_add_variable vars names n ty dom :
  n ∉ vars → preserves (lacks vars names) (add_variable n ty dom).
Proof.
  intros Hn s [Hv Hc]. split.
  - intros k Hk. rewrite (add_variable_other n ty dom s k); [by apply Hv |].
    intros ->. contradiction.
  - destruct (add_variable_effect n ty dom s) as (b & vs & -> & _). exact Hc.
Qed.

Lemma lacks_add_constraint vars names f n :
  n ∉ names → preserves (lacks vars names) (add_constraint f n true).
Proof.
  intros Hn s [Hv Hc]. rewrite add_constraint_run. split; [exact Hv |].
  intros k Hk. unfold recorded_names. cbn [fst constraints].
  rewrite fmap_app. cbn [fmap list_fmap name].
  rewrite elem_of_app, list_elem_of_singleton. intros [Hin | ->].
  - by apply (Hc k).
  - contradiction.
Qed.

(** Closes [n ∉ l] for a list of literal names. *)
Ltac not_listed :=
  unfold budget_variables, budget_constraints;
  rewrite ?not_elem_of_cons; repeat split;
  first [apply not_elem_of_nil | other_name].

Ltac lacking leaf :=
  preserving ltac:(idtac;
                   lazymatch goal with
                   | |- preserves _ (add_variable _ _ _) =>
                       apply lacks_add_variable; not_listed
                   | |- preserves _ (add_constraint _ _ _) =>
                       apply lacks_add_constraint; not_listed
                   | |- preserves _ (formalize_preference _ _ _ _) => leaf
                   end).

Lemma lacks_preference rt data i pref :
  Py.truthy (Py.get data "budget") = false →
  preserves (lacks budget_variables budget_constraints) (formalize_preference rt data i pref).
Proof.
  intros Hb. unfold formalize_preference. rewrite Hb, andb_false_r. cbv zeta.
  lacking idtac.
Qed.

Lemma lacks_formalize rt data :
  Py.truthy (Py.get data "budget") = false →
  preserves (lacks budget_variables budget_constraints) (_formalize_problem rt data).
Proof.
  intros Hb.
  unfold _formalize_problem, formalize_dates, formalize_budget, formalize_preferences,
    formalize_hotel, formalize_scheduling.
  rewrite Hb. cbv zeta.
  lacking ltac:(apply (lacks_preference _ _ _ _ Hb)).
Qed.

Lemma lacks_init vars names : lacks vars names __init__.
Proof.
  split.
  - intros n _. change (variables __init__) with (∅ : gmap string Z3.const).
    apply lookup_empty.
  - intros n _. apply not_elem_of_nil.
Qed.

(** C10, as the code has it. A falsy value under [start_date],
    [end_date], [budget], [hotels], [attractions] or [preferences] is
    formalized exactly like a missing key, from every state of the
    instance. Under [duration] a falsy value skips the scheduling block
    like a missing key (the budget block reads the duration with
    [data.get('duration', 3)] and multiplies by the value that is there).
    With a falsy budget no cost variable is declared and no budget
    constraint recorded, [budget_limit] included. *)
Theorem C10_falsy_fields_are_absent rt data k v :
  k ∈ gated_fields →
  Py.truthy v = false →
  (∀ s, _formalize_problem rt (<[k := v]> data) s
        = _formalize_problem rt (delete k data) s)
  ∧ (∀ s, formalize_scheduling rt (<["duration" := v]> data) s
          = formalize_scheduling rt (delete "duration" data) s)
  ∧ lacks budget_variables budget_constraints
      (_formalize_problem rt (<["budget" := v]> data) __init__).1.
Proof.
  intros Hk Hv. split; [| split].
  - apply formalize_alike, falsy_alike_absent; [| exact Hv].
    intros ->. unfold gated_fields in Hk.
    repeat (apply elem_of_cons in Hk as [Hk | Hk]; [discriminate Hk |]).
    inversion Hk.
  - intros s. unfold formalize_scheduling, Py.get.
    rewrite lookup_insert_eq, lookup_delete_eq. cbn [default from_option id].
    rewrite Hv, !andb_false_r. reflexivity.
  - apply lacks_formalize; [| apply lacks_init].
    unfold Py.get. rewrite lookup_insert_eq. exact Hv.
Qed.

Lemma C10_falsy_fields_are_absent_witness :
  "budget" ∈ gated_fields
  ∧ Py.truthy (JInt 0) = false
  ∧ (∀ s, _formalize_problem (scenario_runtime ∅) (<["budget" := JInt 0]> zurich) s
          = _formalize_problem (scenario_runtime ∅) (delete "budget" zurich) s)
  ∧ lacks budget_variables budget_constraints
      (_formalize_problem (scenario_runtime ∅) zurich_for_free __init__).1.
Proof.
  assert (H1 : "budget" ∈ gated_fields).
  { unfold gated_fields. do 2 apply list_elem_of_further. apply list_elem_of_here. }
  assert (H2 : Py.truthy (JInt 0) = false) by reflexivity.
  split; [exact H1 |]. split; [exact H2 |].
  destruct (C10_falsy_fields_are_absent (scenario_runtime ∅) zurich "budget" (JInt 0) H1 H2)
    as (Hsame & _ & Hlacks).
  split; [exact Hsame | exact Hlacks].
Defined.

Lemma open_ended_refuted :
  ∀ m, Z3.satisfies m
         (solver (_formalize_problem (scenario_runtime ∅) open_ended __init__).1) = false.
Proof.
  intros m. apply refuted_unsatisfiable.
  apply (formalize_refuted (scenario_runtime ∅) open_ended (Py.NInt 50) [hotel 30]
           [Py.NInt 30] (Py.NInt 3) (Py.NInt 30)).
  - vm_compute; reflexivity.
  - reflexivity.
  - vm_compute; reflexivity.
  - discriminate.
  - constructor; [apply hotel_priced | constructor].
  - vm_compute; reflexivity.
  - split; [apply list_elem_of_here |].
    intros p Hp. apply list_elem_of_singleton in Hp as ->. apply Qle_refl.
  - reflexivity.
  - assert (H : (_formalize_problem (scenario_runtime ∅) open_ended __init__).2 = Ok ())
      by (vm_compute; reflexivity).
    destruct (_formalize_problem (scenario_runtime ∅) open_ended __init__) as [st o].
    simpl in *. by rewrite H.
Qed.

(** C10, as the claim has it, fails for [duration]: with a budget and a
    hotel, a duration of 0 is not formalized like a missing duration. The
    range of the accommodation cost is computed with 0 days instead of the
    default 3, and the first problem has a model while the second has
    none. *)
Lemma C10_counterexample :
  Py.truthy (JInt 0) = false
  ∧ day_trip !! "duration" = Some (JInt 0)
  ∧ open_ended = delete "duration" day_trip
  ∧ constraint_names (_formalize_problem (scenario_runtime ∅) day_trip __init__).1
      !! "accommodation_cost_range"
    = Some (accommodation_cost_range (Py.NInt 30) (Py.NInt 30) (Py.NInt 0))
  ∧ constraint_names (_formalize_problem (scenario_runtime ∅) open_ended __init__).1
      !! "accommodation_cost_range"
    = Some (accommodation_cost_range (Py.NInt 30) (Py.NInt 30) (Py.NInt 3))
  ∧ Z3.satisfies day_trip_model
      (solver (_formalize_problem (scenario_runtime ∅) day_trip __init__).1) = true
  ∧ (∀ m, Z3.satisfies m
            (solver (_formalize_problem (scenario_runtime ∅) open_ended __init__).1) = false)
  ∧ _formalize_problem (scenario_runtime ∅) day_trip __init__
    ≠ _formalize_problem (scenario_runtime ∅) open_ended __init__.
Proof.
  split; [reflexivity |].
  split; [vm_compute; reflexivity |].
  split; [reflexivity |].
  split; [vm_compute; reflexivity |].
  split; [vm_compute; reflexivity |].
  split; [vm_compute; reflexivity |].
  split; [exact open_ended_refuted |].
  intros E. pose proof (open_ended_refuted day_trip_model) as H.
  rewrite <- E in H.
  assert (Hm : Z3.satisfies day_trip_model
                 (solver (_formalize_problem (scenario_runtime ∅) day_trip __init__).1) = true)
    by (vm_compute; reflexivity).
  congruence.
Qed.
